(** * yubaba-AI: the name-generation endpoint of [main.py]

    A shallow embedding of the request path of the service:
    [NameInput] validation, [create_new_name] and
    [generate_yubaba_name_gemini], together with the parts of the Python
    [str] type they use ([strip], [in]).

    Python strings are sequences of Unicode code points, so a string is a
    list of code points here.  The literals of the source are written as
    Rocq byte strings and decoded from UTF-8, which keeps them readable. *)

From Stdlib Require Import List NArith ZArith Bool Lia String Ascii.
Import ListNotations.

(** ** Python [str] *)

Module PyStr.

Definition codepoint := N.
Definition pystr := list codepoint.

Local Open Scope N_scope.

(** Decoding of the UTF-8 bytes of a source literal.  Continuation bytes
    contribute their low six bits. *)
Definition cont (b : N) : N := N.land b 63.

Fixpoint utf8_decode (bs : list N) : pystr :=
  match bs with
  | [] => []
  | b :: r =>
    if b <? 128 then b :: utf8_decode r
    else if b <? 224 then
      match r with
      | c1 :: r1 => (N.land b 31 * 64 + cont c1) :: utf8_decode r1
      | _ => []
      end
    else if b <? 240 then
      match r with
      | c1 :: c2 :: r2 =>
        (N.land b 15 * 4096 + cont c1 * 64 + cont c2) :: utf8_decode r2
      | _ => []
      end
    else
      match r with
      | c1 :: c2 :: c3 :: r3 =>
        (N.land b 7 * 262144 + cont c1 * 4096 + cont c2 * 64 + cont c3)
          :: utf8_decode r3
      | _ => []
      end
  end.

Fixpoint bytes_of (s : string) : list N :=
  match s with
  | EmptyString => []
  | String a r => N_of_ascii a :: bytes_of r
  end.

(** [u "..."] is the Python string written by that literal. *)
Definition u (s : string) : pystr := utf8_decode (bytes_of s).

Arguments u s%_string : simpl never.

(** [str.isspace] on one character: the code points CPython lists in
    [_PyUnicode_IsWhitespace]. *)
Definition isspace (c : codepoint) : bool :=
  ((9 <=? c) && (c <=? 13)) || ((28 <=? c) && (c <=? 32))
  || (c =? 133) || (c =? 160) || (c =? 5760)
  || ((8192 <=? c) && (c <=? 8202))
  || (c =? 8232) || (c =? 8233) || (c =? 8239) || (c =? 8287)
  || (c =? 12288).

(** [s.isspace()]: at least one character, and all of them whitespace. *)
Definition str_isspace (s : pystr) : bool :=
  match s with
  | [] => false
  | _ => forallb isspace s
  end.

Fixpoint lstrip (s : pystr) : pystr :=
  match s with
  | [] => []
  | c :: r => if isspace c then lstrip r else s
  end.

Definition rstrip (s : pystr) : pystr := rev (lstrip (rev s)).

(** [s.strip()] with no argument. *)
Definition strip (s : pystr) : pystr := rstrip (lstrip s).

Fixpoint startswith (s p : pystr) {struct p} : bool :=
  match p, s with
  | [], _ => true
  | _ :: _, [] => false
  | a :: p', b :: s' => (a =? b) && startswith s' p'
  end.

(** [sub in s] on strings: [sub] occurs in [s] as a contiguous run. *)
Fixpoint str_in (sub s : pystr) : bool :=
  startswith s sub ||
  match s with
  | [] => false
  | _ :: r => str_in sub r
  end.

(** Truth value of a string: non-empty. *)
Definition truthy (s : pystr) : bool :=
  match s with [] => false | _ => true end.

End PyStr.
Import PyStr.

(** ** Exceptions, log records and the effects of a request *)

(** The exceptions an [except Exception] clause binds.  The source tells
    the web framework's [HTTPException] apart from every other class with
    [isinstance]; the other classes only carry a message here.
    Interpreter signals outside the [Exception] hierarchy (keyboard
    interrupt, interpreter exit) are not modelled. *)
Inductive exc : Type :=
| HTTPException (status_code : Z) (detail : pystr)
| OtherException (message : pystr).

Definition isinstance_HTTPException (e : exc) : bool :=
  match e with
  | HTTPException _ _ => true
  | OtherException _ => false
  end.

Inductive result (A : Type) : Type :=
| Return (a : A)
| Raise (e : exc).

Arguments Return {A} a.
Arguments Raise {A} e.

Inductive level : Type := INFO | WARNING | ERROR.

(** One entry of [prompt_feedback.safety_ratings]. *)
Record SafetyRating : Type := {
  category : N;
  probability : N;
  blocked : bool
}.

(** The arguments the source hands to the logger next to a format. *)
Inductive log_arg : Type :=
| ArgStr (s : pystr)
| ArgExc (e : exc)
| ArgRatings (r : list SafetyRating).

(** What a request does besides answering: the records it sends to the
    server-side logger (format and arguments, as passed) and the calls of
    [model.generate_content] it makes. *)
Inductive event : Type :=
| Logged (lv : level) (fmt : pystr) (args : list log_arg)
| GenerateContent (prompt : pystr).

Definition is_backend_call (ev : event) : bool :=
  match ev with
  | GenerateContent _ => true
  | Logged _ _ _ => false
  end.

Definition backend_calls (tr : list event) : list event :=
  filter is_backend_call tr.

(** A computation: the events it performed, in order, and how it ended. *)
Definition M (A : Type) : Type := (list event * result A)%type.

Definition ret {A} (a : A) : M A := ([], Return a).

Definition raise {A} (e : exc) : M A := ([], Raise e).

Definition bind {A B} (m : M A) (k : A -> M B) : M B :=
  match m with
  | (tr, Return a) => let (tr', r) := k a in (tr ++ tr', r)
  | (tr, Raise e) => (tr, Raise e)
  end.

(** [try: m  except Exception as e: h e] *)
Definition try_except {A} (m : M A) (h : exc -> M A) : M A :=
  match m with
  | (tr, Return a) => (tr, Return a)
  | (tr, Raise e) => let (tr', r) := h e in (tr ++ tr', r)
  end.

Definition emit (ev : event) : M unit := ([ev], Return tt).

Definition log (lv : level) (fmt : string) (args : list log_arg) : M unit :=
  emit (Logged lv (u fmt) args).

Arguments log lv fmt%_string args.

(** The value of an expression that may raise. *)
Definition eval {A} (r : result A) : M A := ([], r).

Declare Scope py_scope.
Delimit Scope py_scope with py.
Notation "x <- m ;; k" := (bind m (fun x => k))
  (at level 100, m at next level, right associativity) : py_scope.
Notation "m ;; k" := (bind m (fun _ => k))
  (at level 100, right associativity) : py_scope.

(** ** The generative-text client *)

Inductive Part : Type :=
| TextPart (t : pystr)
| DataPart (mime_type : pystr).

Record PromptFeedback : Type := {
  safety_ratings : list SafetyRating
}.

(** A response of the client, as far as the handler reads it.  [parts]
    and [text] are accessors computed by the client library and may
    raise; a [prompt_feedback] that tests false is [None]. *)
Record GenerateContentResponse : Type := {
  parts : result (list Part);
  text : result pystr;
  prompt_feedback : option PromptFeedback
}.

(** The configured model: its one capability either raises or returns a
    response. *)
Record GenerativeModel : Type := {
  generate_content : pystr -> result GenerateContentResponse
}.

(** ** Request and response models *)

Record NameInput : Type := { name : pystr }.

Record NameOutput : Type := { new_name : pystr }.

(** The JSON body of a request as far as its [name] member goes: absent,
    or a string. *)
Record RequestBody : Type := { name_member : option pystr }.

(** Validation of the body against [NameInput]: the annotation
    [name: str] has no default, so the member is required. *)
Definition NameInput_validate (b : RequestBody) : option NameInput :=
  match name_member b with
  | Some s => Some {| name := s |}
  | None => None
  end.

(** What the HTTP layer sends back: the 200 body of a [NameOutput], the
    JSON body with the detail of an [HTTPException], a response with a
    status code and no body, the answer to a body that failed validation,
    or the plain 500 of the server for an exception nothing handled. *)
Inductive HTTPResponse : Type :=
| JSONResponse (body : NameOutput)
| HTTPError (status_code : Z) (detail : pystr)
| BareResponse (status_code : Z)
| RequestValidationError
| UnhandledError (e : exc).

Definition status (r : HTTPResponse) : Z :=
  match r with
  | JSONResponse _ => 200
  | HTTPError s _ => s
  | BareResponse s => s
  | RequestValidationError => 422
  | UnhandledError _ => 500
  end.

(** A string can be written as UTF-8, as the JSON body of a response is,
    unless it holds a surrogate code point that stands alone (in a
    Python [str] every surrogate does). *)
Definition is_surrogate (c : codepoint) : bool :=
  (55296 <=? c)%N && (c <=? 57343)%N.

Definition utf8_encodable (s : pystr) : bool :=
  forallb (fun c => negb (is_surrogate c) && (c <=? 1114111)%N) s.

(** The error of the JSON rendering on a string that cannot be encoded. *)
Definition encoding_error : exc :=
  OtherException (u "surrogates not allowed").

(** The framework's test for the status codes that carry a body: not the
    informational ones, and not 204, 205 or 304. *)
Definition is_body_allowed_for_status_code (status_code : Z) : bool :=
  negb ((status_code <? 200)%Z || (status_code =? 204)%Z
        || (status_code =? 205)%Z || (status_code =? 304)%Z).

(** ** The handler *)

Local Open Scope py_scope.

(** The texts of the three server errors the generation function raises,
    and of the two the endpoint raises. *)
Definition detail_unexpected_format : pystr :=
  u "名前の生成結果が予期せぬ形式です。".

Definition detail_no_response : pystr :=
  u "名前の生成に失敗しました(応答なし)。".

Definition detail_server_error : pystr :=
  u "名前の生成中にサーバーエラーが発生しました。".

Definition detail_no_name : pystr :=
  u "名前が入力されていません。".

Definition detail_internal_error : pystr :=
  u "サーバー内部でエラーが発生しました。".

(** The f-string of [generate_yubaba_name_gemini]: the template with the
    name substituted at its two places. *)
Definition prompt_of (name : pystr) : pystr :=
  (u "あなたは銭婆の姉である湯婆婆です。贅沢な名前「" ++ name ++
   u "」を入力されたら、その名前から短く呼びやすい新しい名前を与えてください。新しい名前は、元の名前の漢字一文字（読みは元の名前に近いもの、または音読み）、または作中に登場する「千（セン）」や「ハク」のように非常に短い名前にしてください。新しい短い名前には読み仮名を（）で添えてください。

以下に名前変換の例を示します。

* 入力：山田太郎 → 出力：山（サン）
* 入力：佐藤花子 → 出力：花（ハナ）
* 入力：木村美咲 → 出力：咲（サキ）
* 入力：高橋健太 → 出力：橋（キョウ）
* 入力：渡辺優子 → 出力：優（ユウ）
* 入力：萩野千尋 → 出力：千（セン）
* 入力：伊藤さくら → 出力：藤（トウ）
* 入力：ニギハヤミコハクヌシ → 出力：ハク（ハク）

入力された名前に基づき、新しい短い名前（読み）のみを返してください。余計な前置きや説明は不要です。

入力：" ++ name ++ u "
出力：").

(** The condition of the format check, on the stripped text. *)
Definition has_paren_pair (new_name : pystr) : bool :=
  (str_in (u "(") new_name && str_in (u ")") new_name)
  || (str_in (u "（") new_name && str_in (u "）") new_name).

Section Handler.

(** The process-wide model object, configured once at start-up. *)
Variable model : GenerativeModel.

Definition generate_yubaba_name_gemini (name : pystr) : M pystr :=
  log INFO "名前生成関数が呼び出されました。入力名: %s" [ArgStr name] ;;
  let prompt := prompt_of name in
  try_except
    (log INFO "Gemini APIにリクエストを送信します..." [] ;;
     emit (GenerateContent prompt) ;;
     response <- eval (generate_content model prompt) ;;
     log INFO "Gemini APIから応答を受信しました。" [] ;;
     ps <- eval (parts response) ;;
     match ps with
     | _ :: _ =>
       t <- eval (text response) ;;
       let new_name := strip t in
       log INFO "生成されたテキスト: %s" [ArgStr new_name] ;;
       if has_paren_pair new_name then
         log INFO "期待した形式の名前を返します。" [] ;;
         ret new_name
       else
         log WARNING "Geminiからの応答が期待した形式ではありませんでした: %s"
           [ArgStr new_name] ;;
         raise (HTTPException 500 detail_unexpected_format)
     | [] =>
       let safety_ratings :=
         match prompt_feedback response with
         | Some pf => ArgRatings (safety_ratings pf)
         | None => ArgStr (u "N/A")
         end in
       log WARNING
         "Geminiからの応答にテキストパートが含まれませんでした。Safety Ratings: %s"
         [safety_ratings] ;;
       raise (HTTPException 500 detail_no_response)
     end)
    (fun e =>
     log ERROR "Gemini API呼び出しまたは処理中にエラーが発生しました: %s"
       [ArgExc e] ;;
     if negb (isinstance_HTTPException e) then
       raise (HTTPException 500 detail_server_error)
     else
       raise e).

(** The endpoint function.  Its two [except] clauses are tried in order:
    [HTTPException] first, any other [Exception] second. *)
Definition create_new_name (name_input : NameInput) : M NameOutput :=
  log INFO "エンドポイント /api/generate-name が呼び出されました。" [] ;;
  let original_name := name name_input in
  if negb (truthy original_name) then
    log WARNING "名前が空でリクエストされました。" [] ;;
    raise (HTTPException 400 detail_no_name)
  else
    try_except
      (new_name <- generate_yubaba_name_gemini original_name ;;
       log INFO "名前生成成功。クライアントに応答を返します。" [] ;;
       ret {| new_name := new_name |})
      (fun e =>
       match e with
       | HTTPException _ detail =>
         log ERROR "名前生成関数内でHTTPExceptionが発生しました: %s"
           [ArgStr detail] ;;
         raise e
       | OtherException _ =>
         log ERROR "エンドポイント処理中に予期せぬエラーが発生しました: %s"
           [ArgExc e] ;;
         raise (HTTPException 500 detail_internal_error)
       end).

(** How the web framework answers with what the endpoint function did.
    A returned model is rendered as the 200 JSON body after the function
    has returned, outside its [try] blocks, and the rendering fails on a
    text that cannot be encoded.  An [HTTPException] goes to the
    framework's handler: no body for a status code that allows none,
    else the JSON body with the detail, rendered the same way.  Any other
    exception would reach the server unhandled.  Status codes are taken
    as they are given; what the server does with one outside 100 to 599
    is not modelled. *)
Definition respond (r : result NameOutput) : HTTPResponse :=
  match r with
  | Return out =>
    if utf8_encodable (new_name out) then JSONResponse out
    else UnhandledError encoding_error
  | Raise (HTTPException s d) =>
    if negb (is_body_allowed_for_status_code s) then BareResponse s
    else if utf8_encodable d then HTTPError s d
    else UnhandledError encoding_error
  | Raise e => UnhandledError e
  end.

(** [POST /api/generate-name]: the body is validated against [NameInput]
    before the endpoint function runs; a body that fails validation is
    answered by the framework alone. *)
Definition post_generate_name (b : RequestBody) : list event * HTTPResponse :=
  match NameInput_validate b with
  | None => ([], RequestValidationError)
  | Some name_input =>
    let (tr, r) := create_new_name name_input in (tr, respond r)
  end.

End Handler.

(** A stub client that answers every prompt with one text part. *)
Definition stub_text (t : pystr) : GenerativeModel :=
  {| generate_content := fun _ =>
       Return {| parts := Return [TextPart t];
                 text := Return t;
                 prompt_feedback := None |} |}.

(** A stub client whose call raises. *)
Definition stub_raising (e : exc) : GenerativeModel :=
  {| generate_content := fun _ => Raise e |}.

(** A stub client that answers with no parts. *)
Definition stub_empty (pf : option PromptFeedback) : GenerativeModel :=
  {| generate_content := fun _ =>
       Return {| parts := Return [];
                 text := Raise (OtherException (u "no parts"));
                 prompt_feedback := pf |} |}.

(** A stub client whose response has no candidate: its accessors
    raise. *)
Definition stub_parts_raising (e : exc) : GenerativeModel :=
  {| generate_content := fun _ =>
       Return {| parts := Raise e;
                 text := Raise e;
                 prompt_feedback := None |} |}.

(** A reply with a pair of parentheses after a surrogate that stands
    alone (U+D800). *)
Definition lone_surrogate_reply : pystr := [55296%N; 40%N; 120%N; 41%N].

(** ** Parenthesis pairs in a text *)

Definition lparen : codepoint := 40%N.
Definition rparen : codepoint := 41%N.
Definition fw_lparen : codepoint := 65288%N.
Definition fw_rparen : codepoint := 65289%N.

(** Both characters occur somewhere, in any order. *)
Definition has_both (o c : codepoint) (s : pystr) : Prop :=
  In o s /\ In c s.

Definition has_bothb (o c : codepoint) (s : pystr) : bool :=
  existsb (N.eqb o) s && existsb (N.eqb c) s.

(** An opening character with its closing character somewhere after it. *)
Definition matched_pair (o c : codepoint) (s : pystr) : Prop :=
  exists a b d, s = (a ++ o :: b ++ c :: d)%list.

Fixpoint matched_pairb (o c : codepoint) (s : pystr) : bool :=
  match s with
  | [] => false
  | x :: r => (N.eqb x o && existsb (N.eqb c) r) || matched_pairb o c r
  end.

(** What [generate_yubaba_name_gemini] raises for an exception caught by
    its [except] clause. *)
Definition surfaced (e : exc) : exc :=
  if negb (isinstance_HTTPException e) then
    HTTPException 500 detail_server_error
  else e.

(** An exception [e] is raised by the backend call or while the response
    is processed: by [generate_content], by the [parts] accessor, or by
    the [text] accessor of a response that has parts. *)
Definition backend_raises (model : GenerativeModel) (nm : pystr) (e : exc)
  : Prop :=
  generate_content model (prompt_of nm) = Raise e
  \/ exists r, generate_content model (prompt_of nm) = Return r
       /\ (parts r = Raise e
           \/ exists p ps, parts r = Return (p :: ps) /\ text r = Raise e).

(** The backend answers with the text [t]: the response has parts and
    its [text] accessor yields [t]. *)
Definition backend_replies (model : GenerativeModel) (nm t : pystr) : Prop :=
  exists r p ps,
    generate_content model (prompt_of nm) = Return r
    /\ parts r = Return (p :: ps) /\ text r = Return t.

(** The backend answers with a response that has no parts. *)
Definition backend_empty (model : GenerativeModel) (nm : pystr) : Prop :=
  exists r,
    generate_content model (prompt_of nm) = Return r /\ parts r = Return [].

(** The request body that carries the name [nm]. *)
Definition body_of (nm : pystr) : RequestBody := {| name_member := Some nm |}.

(** The three kinds of server error of the generation function. *)
Inductive error_kind : Type :=
| UpstreamFailure
| EmptyResponse
| UnexpectedFormat.

Definition generic_detail (k : error_kind) : pystr :=
  match k with
  | UpstreamFailure => detail_server_error
  | EmptyResponse => detail_no_response
  | UnexpectedFormat => detail_unexpected_format
  end.

(** The backend fails with kind [k] on the prompt for [nm]. *)
Definition backend_fails (model : GenerativeModel) (nm : pystr)
  (k : error_kind) : Prop :=
  match k with
  | UpstreamFailure => exists e, backend_raises model nm e
  | EmptyResponse => backend_empty model nm
  | UnexpectedFormat =>
    exists t, backend_replies model nm t /\ has_paren_pair (strip t) = false
  end.

(** ** Records of the server-side log *)

Definition level_eqb (a b : level) : bool :=
  match a, b with
  | INFO, INFO | WARNING, WARNING | ERROR, ERROR => true
  | _, _ => false
  end.

Fixpoint pystr_eqb (a b : pystr) : bool :=
  match a, b with
  | [], [] => true
  | x :: a', y :: b' => N.eqb x y && pystr_eqb a' b'
  | _, _ => false
  end.

(** [ev] is a log record of level [lv] made with the format [fmt]. *)
Definition is_record (lv : level) (fmt : pystr) (ev : event) : bool :=
  match ev with
  | Logged l f _ => level_eqb l lv && pystr_eqb f fmt
  | GenerateContent _ => false
  end.

(** ** Start-up of the module

    The statements [main.py] runs when it is imported, up to the loading
    of the model: the API key is read from the environment (as it is
    after [load_dotenv()]), the client library is configured with it, the
    application and its CORS middleware are set up, and the model object
    is created. *)

Definition Environ : Type := list (pystr * pystr).

(** [os.getenv(key)]: the value bound to [key], or [None]. *)
Fixpoint getenv (environ : Environ) (key : pystr) : option pystr :=
  match environ with
  | [] => None
  | (k, v) :: r => if pystr_eqb k key then Some v else getenv r key
  end.

(** The two entry points of the client library the module uses; each may
    raise. *)
Record GenAI : Type := {
  configure : pystr -> result unit;
  new_GenerativeModel : pystr -> result GenerativeModel
}.

Inductive boot_arg : Type :=
| BootStr (s : pystr)
| BootList (l : list pystr).

(** What start-up does: log records (the two error records of the
    [except] clauses are f-strings that interpolate the exception), calls
    of the client library, and the set-up of the application. *)
Inductive boot_event : Type :=
| BootLogged (lv : level) (fmt : pystr) (args : list boot_arg)
| BootLoggedF (lv : level) (fmt : pystr) (e : exc)
| Configure (api_key : pystr)
| CreateApp (title description version : pystr)
| AddCORS (allow_origins : list pystr) (allow_credentials : bool)
    (allow_methods allow_headers : list pystr)
| LoadModel (model_name : pystr).

(** How start-up ends: the module is loaded with its model, the import
    fails with an exception, or the process leaves through [exit()]. *)
Inductive boot_result : Type :=
| Serving (model : GenerativeModel)
| Crashed (e : exc)
| Exited.

Definition is_client_call (ev : boot_event) : bool :=
  match ev with
  | Configure _ | LoadModel _ => true
  | _ => false
  end.

Definition client_calls (tr : list boot_event) : list boot_event :=
  filter is_client_call tr.

(** The message of the [ValueError] raised when the key is not set. *)
Definition key_missing_message : pystr :=
  u "Gemini APIキーが環境変数に設定されていません。'GEMINI_API_KEY' を設定してください。".

Definition model_name : pystr := u "gemini-1.5-flash".

Definition origins : list pystr := [u "*"].

Definition startup (genai : GenAI) (environ : Environ)
  : list boot_event * boot_result :=
  let tr0 :=
    [BootLogged INFO (u ".envファイルを読み込みました (存在する場合)") []] in
  let gemini_api_key := getenv environ (u "GEMINI_API_KEY") in
  let key_missing :=
    (tr0 ++ [BootLogged ERROR
               (u "環境変数 'GEMINI_API_KEY' が設定されていません。") []],
     Crashed (OtherException key_missing_message)) in
  match gemini_api_key with
  | None => key_missing
  | Some key =>
    if negb (truthy key) then key_missing
    else
      match configure genai key with
      | Raise e =>
        (tr0 ++ [Configure key;
                 BootLoggedF ERROR
                   (u "Gemini APIキーの設定に失敗しました: {e}") e],
         Exited)
      | Return _ =>
        let tr1 :=
          tr0 ++
          [Configure key;
           BootLogged INFO (u "Gemini APIキーが正常に設定されました。") [];
           CreateApp (u "湯婆婆AI API (Gemini)")
             (u "入力された名前を湯婆婆風の短い名前に変換するAPIです (Gemini版)。")
             (u "1.1.1");
           AddCORS origins true [u "*"] [u "*"];
           BootLogged INFO
             (u "CORSミドルウェアを設定しました。許可オリジン: %s")
             [BootList origins]] in
        match new_GenerativeModel genai model_name with
        | Raise e =>
          (tr1 ++ [LoadModel model_name;
                   BootLoggedF ERROR
                     (u "Geminiモデルのロードに失敗しました: {e}") e],
           Exited)
        | Return model =>
          (tr1 ++ [LoadModel model_name;
                   BootLogged INFO (u "Geminiモデル '%s' をロードしました。")
                     [BootStr model_name]],
           Serving model)
        end
      end
  end.

(** A client library whose two entry points succeed. *)
Definition genai_ok (m : GenerativeModel) : GenAI :=
  {| configure := fun _ => Return tt;
     new_GenerativeModel := fun _ => Return m |}.

(** A client library that refuses the key. *)
Definition genai_refusing (e : exc) (m : GenerativeModel) : GenAI :=
  {| configure := fun _ => Raise e;
     new_GenerativeModel := fun _ => Return m |}.

(** * Properties *)

(** ** Strings *)

Example u_ascii_parens : u "()" = [lparen; rparen].
Proof. reflexivity. Qed.

Example u_fullwidth_parens : u "（）" = [fw_lparen; fw_rparen].
Proof. reflexivity. Qed.

Example u_name : u "山田太郎" = [23665%N; 30000%N; 22826%N; 37070%N].
Proof. reflexivity. Qed.

Example strip_example : strip (u "  山（サン）
") = u "山（サン）".
Proof. reflexivity. Qed.

Example strip_all_space : strip (u "   ") = [].
Proof. reflexivity. Qed.

Lemma parens_not_space :
  isspace lparen = false /\ isspace rparen = false
  /\ isspace fw_lparen = false /\ isspace fw_rparen = false.
Proof. repeat split; reflexivity. Qed.

Lemma str_in_single (c : codepoint) (s : pystr) :
  str_in [c] s = true <-> In c s.
Proof.
  induction s as [|x r IH]; simpl.
  - split; [discriminate | contradiction].
  - rewrite andb_true_r, orb_true_iff, IH, N.eqb_eq.
    split; intros [H|H]; auto.
Qed.

Lemma startswith_app (p b : pystr) : startswith (p ++ b) p = true.
Proof.
  induction p as [|x p IH]; simpl; [reflexivity|].
  now rewrite N.eqb_refl, IH.
Qed.

Lemma str_in_skip (sub a s : pystr) :
  str_in sub s = true -> str_in sub (a ++ s) = true.
Proof.
  intros H. induction a as [|x a IH]; simpl; [exact H|].
  rewrite IH. apply orb_true_r.
Qed.

Lemma str_in_embedded (sub a b : pystr) : str_in sub (a ++ sub ++ b) = true.
Proof.
  apply str_in_skip. destruct (sub ++ b) eqn:E; simpl.
  - destruct sub; [reflexivity | discriminate].
  - rewrite <- E, startswith_app. reflexivity.
Qed.

Lemma lstrip_split (s : pystr) :
  exists l, s = l ++ lstrip s /\ forallb isspace l = true.
Proof.
  induction s as [|c r [l [E F]]]; simpl.
  - exists []. now split.
  - destruct (isspace c) eqn:W.
    + exists (c :: l). simpl. rewrite W, F. split; [now f_equal | reflexivity].
    + exists []. now split.
Qed.

Lemma lstrip_head (s : pystr) (c : codepoint) (r : pystr) :
  lstrip s = c :: r -> isspace c = false.
Proof.
  induction s as [|x s IH]; simpl; [discriminate|].
  destruct (isspace x) eqn:W; [exact IH|].
  intros E. now injection E as -> _.
Qed.

Lemma In_lstrip (c : codepoint) (s : pystr) :
  isspace c = false -> (In c (lstrip s) <-> In c s).
Proof.
  intros Hc. induction s as [|x s IH]; simpl; [tauto|].
  destruct (isspace x) eqn:W; [|simpl; tauto].
  rewrite IH. split; [auto|]. intros [->|H]; [congruence | exact H].
Qed.

Lemma In_strip (c : codepoint) (s : pystr) :
  isspace c = false -> (In c (strip s) <-> In c s).
Proof.
  intros Hc. unfold strip, rstrip.
  now rewrite <- In_rev, In_lstrip, <- In_rev, In_lstrip.
Qed.

(** [strip] removes a run of whitespace at each end and nothing else. *)
Lemma strip_split (s : pystr) :
  exists l r, s = l ++ strip s ++ r
    /\ forallb isspace l = true /\ forallb isspace r = true.
Proof.
  destruct (lstrip_split s) as [l [E F]].
  destruct (lstrip_split (rev (lstrip s))) as [r' [E' F']].
  exists l, (rev r'). split; [|split; [exact F|]].
  - rewrite E at 1. f_equal. unfold strip, rstrip.
    rewrite <- rev_app_distr, <- E'. now rewrite rev_involutive.
  - rewrite forallb_forall in *. intros x Hx. apply F'. now apply In_rev.
Qed.

Lemma strip_no_trailing (s r : pystr) (c : codepoint) :
  strip s = r ++ [c] -> isspace c = false.
Proof.
  unfold strip, rstrip. intros E.
  apply (f_equal (@rev codepoint)) in E.
  rewrite rev_involutive, rev_app_distr in E. simpl in E.
  exact (lstrip_head _ _ _ E).
Qed.

Lemma strip_no_leading (s r : pystr) (c : codepoint) :
  strip s = c :: r -> isspace c = false.
Proof.
  unfold strip, rstrip. intros E.
  destruct (lstrip_split (rev (lstrip s))) as [w [Ew _]].
  apply (f_equal (@rev codepoint)) in Ew.
  rewrite rev_involutive, rev_app_distr, E in Ew. simpl in Ew.
  exact (lstrip_head _ _ _ Ew).
Qed.

(** ** The format check *)

Lemma has_paren_pair_spec (s : pystr) :
  has_paren_pair s = true <->
  has_both lparen rparen s \/ has_both fw_lparen fw_rparen s.
Proof.
  unfold has_paren_pair, has_both.
  change (u "(") with [lparen]. change (u ")") with [rparen].
  change (u "（") with [fw_lparen]. change (u "）") with [fw_rparen].
  rewrite orb_true_iff, !andb_true_iff, !str_in_single. tauto.
Qed.

Lemma has_bothb_spec (o c : codepoint) (s : pystr) :
  has_bothb o c s = true <-> has_both o c s.
Proof.
  unfold has_bothb, has_both.
  rewrite andb_true_iff, !existsb_exists.
  split; intros [H1 H2]; split.
  - destruct H1 as (x & Hx & E). apply N.eqb_eq in E. now subst x.
  - destruct H2 as (x & Hx & E). apply N.eqb_eq in E. now subst x.
  - exists o. split; [exact H1 | apply N.eqb_refl].
  - exists c. split; [exact H2 | apply N.eqb_refl].
Qed.

Lemma has_both_strip (o c : codepoint) (t : pystr) :
  isspace o = false -> isspace c = false ->
  (has_both o c (strip t) <-> has_both o c t).
Proof.
  intros Ho Hc. unfold has_both. now rewrite !In_strip.
Qed.

(** Stripping moves no parenthesis, so the check may be read on the
    reply as the backend sent it. *)
Lemma has_paren_pair_strip (t : pystr) :
  has_paren_pair (strip t) = has_paren_pair t.
Proof.
  destruct parens_not_space as (H1 & H2 & H3 & H4).
  apply eq_true_iff_eq. rewrite !has_paren_pair_spec.
  rewrite (has_both_strip _ _ t H1 H2), (has_both_strip _ _ t H3 H4). tauto.
Qed.

Lemma space_only_no_pair (t : pystr) :
  forallb isspace t = true -> has_paren_pair t = false.
Proof.
  intros H. destruct (has_paren_pair t) eqn:E; [|reflexivity].
  rewrite forallb_forall in H.
  apply has_paren_pair_spec in E.
  destruct E as [[E _]|[E _]]; apply H in E; discriminate E.
Qed.

Lemma matched_pairb_spec (o c : codepoint) (s : pystr) :
  matched_pairb o c s = true <-> matched_pair o c s.
Proof.
  unfold matched_pair. induction s as [|x r IH]; simpl.
  - split; [discriminate|]. intros (a & b & d & E). now destruct a.
  - rewrite orb_true_iff, andb_true_iff, N.eqb_eq, existsb_exists, IH.
    split.
    + intros [[-> (y & Hy & E)] | (a & b & d & E)].
      * apply N.eqb_eq in E. subst y.
        destruct (in_split _ _ Hy) as (b & d & ->).
        now exists [], b, d.
      * exists (x :: a), b, d. simpl. now rewrite E.
    + intros (a & b & d & E). destruct a as [|y a]; simpl in E.
      * injection E as -> ->. left. split; [reflexivity|].
        exists c. split; [|apply N.eqb_refl].
        apply in_or_app. right. now left.
      * injection E as -> ->. right. now exists a, b, d.
Qed.

Lemma matched_pair_has_both (o c : codepoint) (s : pystr) :
  matched_pair o c s -> has_both o c s.
Proof.
  intros (a & b & d & ->). split; apply in_or_app; right.
  - now left.
  - right. apply in_or_app. right. now left.
Qed.

(** ** What the framework answers *)

Lemma respond_json_inv (r : result NameOutput) (out : NameOutput) :
  respond r = JSONResponse out ->
  r = Return out /\ utf8_encodable (new_name out) = true.
Proof.
  unfold respond. destruct r as [o|[s d|m]].
  - destruct (utf8_encodable (new_name o)) eqn:E; [|discriminate].
    intros H. injection H as ->. now split.
  - destruct (negb (is_body_allowed_for_status_code s)); [discriminate|].
    destruct (utf8_encodable d); discriminate.
  - discriminate.
Qed.

Lemma respond_error_inv (r : result NameOutput) (s : Z) (d : pystr) :
  respond r = HTTPError s d -> r = Raise (HTTPException s d).
Proof.
  unfold respond. destruct r as [o|[s' d'|m]].
  - destruct (utf8_encodable (new_name o)); discriminate.
  - destruct (negb (is_body_allowed_for_status_code s')); [discriminate|].
    destruct (utf8_encodable d'); [|discriminate].
    intros H. now injection H as -> ->.
  - discriminate.
Qed.

Lemma respond_return (out : NameOutput) :
  utf8_encodable (new_name out) = true -> respond (Return out) = JSONResponse out.
Proof. intros H. unfold respond. now rewrite H. Qed.

Lemma respond_http (s : Z) (d : pystr) :
  is_body_allowed_for_status_code s = true -> utf8_encodable d = true ->
  respond (Raise (HTTPException s d)) = HTTPError s d.
Proof. intros Hs Hd. unfold respond. now rewrite Hs, Hd. Qed.

(** An [HTTPException] with status 500 is answered with status 500. *)
Lemma status_respond_500 (d : pystr) :
  status (respond (Raise (HTTPException 500 d))) = 500%Z.
Proof.
  unfold respond. cbn [is_body_allowed_for_status_code negb].
  change (negb (is_body_allowed_for_status_code 500)) with false.
  cbn iota. now destruct (utf8_encodable d).
Qed.

Lemma respond_no_name :
  respond (Raise (HTTPException 400 detail_no_name))
  = HTTPError 400 detail_no_name.
Proof. apply respond_http; vm_compute; reflexivity. Qed.

Lemma respond_unexpected_format :
  respond (Raise (HTTPException 500 detail_unexpected_format))
  = HTTPError 500 detail_unexpected_format.
Proof. apply respond_http; vm_compute; reflexivity. Qed.

Lemma respond_no_response :
  respond (Raise (HTTPException 500 detail_no_response))
  = HTTPError 500 detail_no_response.
Proof. apply respond_http; vm_compute; reflexivity. Qed.

Lemma respond_server_error :
  respond (Raise (HTTPException 500 detail_server_error))
  = HTTPError 500 detail_server_error.
Proof. apply respond_http; vm_compute; reflexivity. Qed.

(** ** What the handler returns *)

Section Results.

Variable model : GenerativeModel.

(** The outcome of the generation function, read off the backend. *)
Lemma generate_result (nm : pystr) :
  snd (generate_yubaba_name_gemini model nm) =
  match generate_content model (prompt_of nm) with
  | Raise e => Raise (surfaced e)
  | Return r =>
    match parts r with
    | Raise e => Raise (surfaced e)
    | Return [] => Raise (HTTPException 500 detail_no_response)
    | Return (_ :: _) =>
      match text r with
      | Raise e => Raise (surfaced e)
      | Return t =>
        if has_paren_pair (strip t) then Return (strip t)
        else Raise (HTTPException 500 detail_unexpected_format)
      end
    end
  end.
Proof.
  unfold generate_yubaba_name_gemini, surfaced.
  destruct (generate_content model (prompt_of nm)) as [r|e]; cbn.
  - destruct (parts r) as [[|p ps]|e]; cbn.
    + now destruct (prompt_feedback r).
    + destruct (text r) as [t|e]; cbn.
      * now destruct (has_paren_pair (strip t)).
      * now destruct e.
    + now destruct e.
  - now destruct e.
Qed.

(** The generation function calls the backend exactly once, with the
    prompt built from its argument. *)
Lemma generate_calls (nm : pystr) :
  backend_calls (fst (generate_yubaba_name_gemini model nm)) =
  [GenerateContent (prompt_of nm)].
Proof.
  unfold generate_yubaba_name_gemini.
  destruct (generate_content model (prompt_of nm)) as [r|e]; cbn.
  - destruct (parts r) as [[|p ps]|e]; cbn.
    + now destruct (prompt_feedback r).
    + destruct (text r) as [t|e]; cbn.
      * now destruct (has_paren_pair (strip t)).
      * now destruct e.
    + now destruct e.
  - now destruct e.
Qed.

(** Whatever the generation function raises is an [HTTPException]. *)
Lemma generate_raises_http (nm : pystr) (e : exc) :
  snd (generate_yubaba_name_gemini model nm) = Raise e ->
  isinstance_HTTPException e = true.
Proof.
  rewrite generate_result. unfold surfaced.
  destruct (generate_content model (prompt_of nm)) as [r|e0].
  - destruct (parts r) as [[|p ps]|e0].
    + intros E. now injection E as <-.
    + destruct (text r) as [t|e0].
      * destruct (has_paren_pair (strip t)); [discriminate|].
        intros E. now injection E as <-.
      * destruct e0; intros E; now injection E as <-.
    + destruct e0; intros E; now injection E as <-.
  - destruct e0; intros E; now injection E as <-.
Qed.

Lemma backend_calls_app (a b : list event) :
  backend_calls (a ++ b) = backend_calls a ++ backend_calls b.
Proof. apply filter_app. Qed.

(** The endpoint function on a non-empty name: it hands on what the
    generation function returned or raised. *)
Lemma create_result (nm : pystr) :
  nm <> [] ->
  snd (create_new_name model {| name := nm |}) =
  match snd (generate_yubaba_name_gemini model nm) with
  | Return x => Return {| new_name := x |}
  | Raise (HTTPException s d) => Raise (HTTPException s d)
  | Raise (OtherException _) => Raise (HTTPException 500 detail_internal_error)
  end.
Proof.
  intros Hnm. unfold create_new_name.
  destruct nm as [|c nm]; [contradiction|]. cbn [name truthy negb].
  destruct (generate_yubaba_name_gemini model (c :: nm)) as [tr [x|e]]; cbn.
  - reflexivity.
  - now destruct e.
Qed.

Lemma create_calls (nm : pystr) :
  nm <> [] ->
  backend_calls (fst (create_new_name model {| name := nm |})) =
  backend_calls (fst (generate_yubaba_name_gemini model nm)).
Proof.
  intros Hnm. unfold create_new_name.
  destruct nm as [|c nm]; [contradiction|]. cbn [name truthy negb].
  destruct (generate_yubaba_name_gemini model (c :: nm)) as [tr [x|e]]; cbn.
  - rewrite backend_calls_app. cbn. apply app_nil_r.
  - destruct e; cbn; rewrite backend_calls_app; cbn; apply app_nil_r.
Qed.

Lemma post_body_of (nm : pystr) :
  post_generate_name model (body_of nm) =
  (fst (create_new_name model {| name := nm |}),
   respond (snd (create_new_name model {| name := nm |}))).
Proof.
  unfold post_generate_name, body_of. cbn [NameInput_validate name_member].
  now destruct (create_new_name model {| name := nm |}).
Qed.

(** The endpoint function on a non-empty name returns what the
    generation function returned and raises what it raised. *)
Lemma create_of_generate (nm : pystr) :
  nm <> [] ->
  snd (create_new_name model {| name := nm |}) =
  match snd (generate_yubaba_name_gemini model nm) with
  | Return x => Return {| new_name := x |}
  | Raise e => Raise e
  end.
Proof.
  intros Hnm. rewrite (create_result nm Hnm).
  pose proof (generate_raises_http nm) as Hh.
  destruct (snd (generate_yubaba_name_gemini model nm)) as [x|[s d|m]];
    try reflexivity.
  specialize (Hh (OtherException m) eq_refl). discriminate Hh.
Qed.

(** The answer to a request with a non-empty name, read off the
    generation function. *)
Lemma post_result (nm : pystr) :
  nm <> [] ->
  snd (post_generate_name model (body_of nm)) =
  respond (match snd (generate_yubaba_name_gemini model nm) with
           | Return x => Return {| new_name := x |}
           | Raise e => Raise e
           end).
Proof.
  intros Hnm. rewrite post_body_of. cbn [snd].
  now rewrite (create_of_generate nm Hnm).
Qed.

Lemma post_calls (nm : pystr) :
  nm <> [] ->
  backend_calls (fst (post_generate_name model (body_of nm))) =
  [GenerateContent (prompt_of nm)].
Proof.
  intros Hnm. rewrite post_body_of. cbn [fst].
  now rewrite (create_calls nm Hnm), generate_calls.
Qed.

(** A request with an empty name is refused before the backend is
    reached. *)
Lemma post_empty_name :
  post_generate_name model (body_of []) =
  ([Logged INFO (u "エンドポイント /api/generate-name が呼び出されました。") [];
    Logged WARNING (u "名前が空でリクエストされました。") []],
   HTTPError 400 detail_no_name).
Proof.
  unfold post_generate_name, body_of, create_new_name.
  cbn [NameInput_validate name_member name truthy negb]. cbn -[respond].
  now rewrite respond_no_name.
Qed.

Lemma post_missing_name :
  post_generate_name model {| name_member := None |} =
  ([], RequestValidationError).
Proof. reflexivity. Qed.

(** The answer when the backend replied with a text. *)
Lemma post_reply (nm t : pystr) :
  nm <> [] -> backend_replies model nm t ->
  snd (generate_yubaba_name_gemini model nm) =
    (if has_paren_pair t then Return (strip t)
     else Raise (HTTPException 500 detail_unexpected_format))
  /\ snd (post_generate_name model (body_of nm)) =
    (if has_paren_pair t then respond (Return {| new_name := strip t |})
     else HTTPError 500 detail_unexpected_format).
Proof.
  intros Hnm (r & p & ps & Hg & Hp & Ht).
  rewrite (post_result nm Hnm), generate_result, Hg, Hp, Ht.
  rewrite has_paren_pair_strip.
  destruct (has_paren_pair t); [now split|].
  now rewrite respond_unexpected_format.
Qed.

(** What the endpoint function returns when the backend replied with a
    text. *)
Lemma create_reply (nm t : pystr) :
  nm <> [] -> backend_replies model nm t ->
  snd (create_new_name model {| name := nm |}) =
    (if has_paren_pair t then Return {| new_name := strip t |}
     else Raise (HTTPException 500 detail_unexpected_format)).
Proof.
  intros Hnm (r & p & ps & Hg & Hp & Ht).
  rewrite (create_of_generate nm Hnm), generate_result, Hg, Hp, Ht.
  rewrite has_paren_pair_strip.
  now destruct (has_paren_pair t).
Qed.

(** What the generation function raises when the backend call or the
    processing raised. *)
Lemma generate_raised (nm : pystr) (e : exc) :
  backend_raises model nm e ->
  snd (generate_yubaba_name_gemini model nm) = Raise (surfaced e).
Proof.
  intros H. rewrite generate_result.
  destruct H as [Hg | (r & Hg & [Hp | (p & ps & Hp & Ht)])].
  - now rewrite Hg.
  - now rewrite Hg, Hp.
  - now rewrite Hg, Hp, Ht.
Qed.

(** The answer when the backend call or the processing raised. *)
Lemma post_raised (nm : pystr) (e : exc) :
  nm <> [] -> backend_raises model nm e ->
  snd (post_generate_name model (body_of nm)) =
  match e with
  | HTTPException s d => respond (Raise (HTTPException s d))
  | OtherException _ => HTTPError 500 detail_server_error
  end.
Proof.
  intros Hnm H. rewrite (post_result nm Hnm), (generate_raised nm e H).
  destruct e; [reflexivity|].
  unfold surfaced. cbn [isinstance_HTTPException negb].
  now rewrite respond_server_error.
Qed.

Lemma post_empty_response (nm : pystr) :
  nm <> [] -> backend_empty model nm ->
  snd (post_generate_name model (body_of nm)) =
  HTTPError 500 detail_no_response.
Proof.
  intros Hnm (r & Hg & Hp).
  rewrite (post_result nm Hnm), generate_result, Hg, Hp.
  now rewrite respond_no_response.
Qed.

(** The endpoint function raises nothing but [HTTPException]s. *)
Lemma create_raises_http (name_input : NameInput) (m : pystr) :
  snd (create_new_name model name_input) <> Raise (OtherException m).
Proof.
  destruct name_input as [[|c nm]].
  - unfold create_new_name. cbn. discriminate.
  - rewrite create_of_generate by discriminate.
    pose proof (generate_raises_http (c :: nm)) as Hh.
    destruct (snd (generate_yubaba_name_gemini model (c :: nm))) as [x|e];
      [discriminate|].
    intros E. injection E as ->.
    specialize (Hh (OtherException m) eq_refl). discriminate Hh.
Qed.

(** A 200 answer comes from a reply that passed the format check. *)
Lemma post_success (b : RequestBody) (out : NameOutput) :
  snd (post_generate_name model b) = JSONResponse out ->
  exists nm t,
    name_member b = Some nm /\ nm <> [] /\ backend_replies model nm t
    /\ has_paren_pair (strip t) = true /\ new_name out = strip t.
Proof.
  destruct b as [[nm|]]; [|discriminate].
  destruct nm as [|c nm].
  - change {| name_member := Some [] |} with (body_of []).
    rewrite post_empty_name. discriminate.
  - change {| name_member := Some (c :: nm) |} with (body_of (c :: nm)).
    rewrite post_result by discriminate. rewrite generate_result.
    intros H. apply respond_json_inv in H. destruct H as [H _]. revert H.
    unfold backend_replies, surfaced.
    destruct (generate_content model (prompt_of (c :: nm))) as [r|e] eqn:Hg.
    + destruct (parts r) as [[|p ps]|e] eqn:Hp.
      * discriminate.
      * destruct (text r) as [t|e] eqn:Ht.
        -- destruct (has_paren_pair (strip t)) eqn:Hc; [|discriminate].
           intros E. injection E as <-.
           exists (c :: nm), t.
           repeat split; try assumption; try discriminate.
           now exists r, p, ps.
        -- destruct e; discriminate.
      * destruct e; discriminate.
    + destruct e; discriminate.
Qed.

(** A 200 answer carries a text that can be encoded. *)
Lemma post_success_encodable (b : RequestBody) (out : NameOutput) :
  snd (post_generate_name model b) = JSONResponse out ->
  utf8_encodable (new_name out) = true.
Proof.
  destruct b as [[nm|]]; [|discriminate].
  change {| name_member := Some nm |} with (body_of nm).
  rewrite post_body_of. cbn [snd]. intros H.
  now apply respond_json_inv in H.
Qed.

End Results.

(** ** The claims *)

(** C1, as the code has it: every successful response of
    POST /api/generate-name carries a [new_name] in which both characters
    of the ASCII pair, or both characters of the full-width pair, occur;
    nothing is promised about their order. *)
Theorem C1_success_has_both_characters
  (model : GenerativeModel) (b : RequestBody) (out : NameOutput) :
  snd (post_generate_name model b) = JSONResponse out ->
  has_both lparen rparen (new_name out)
  \/ has_both fw_lparen fw_rparen (new_name out).
Proof.
  intros H.
  destruct (post_success model b out H) as (nm & t & _ & _ & _ & Hc & ->).
  now apply has_paren_pair_spec.
Qed.

Lemma C1_success_has_both_characters_witness :
  snd (post_generate_name (stub_text (u "山（サン）")) (body_of (u "山田太郎")))
    = JSONResponse {| new_name := u "山（サン）" |}
  /\ (has_both lparen rparen (u "山（サン）")
      \/ has_both fw_lparen fw_rparen (u "山（サン）")).
Proof.
  split; [vm_compute; reflexivity|].
  apply (C1_success_has_both_characters
           (stub_text (u "山（サン）")) (body_of (u "山田太郎"))
           {| new_name := u "山（サン）" |}).
  vm_compute. reflexivity.
Defined.

(** C1 as stated fails: a reply whose closing parenthesis comes before
    its opening one is returned with status 200, and it holds no matching
    pair of either width. *)
Lemma C1_matching_pair_counterexample :
  snd (post_generate_name (stub_text (u "サン)テキスト("))
         (body_of (u "山田太郎")))
    = JSONResponse {| new_name := u "サン)テキスト(" |}
  /\ ~ (matched_pair lparen rparen (u "サン)テキスト(")
        \/ matched_pair fw_lparen fw_rparen (u "サン)テキスト(")).
Proof.
  split; [vm_compute; reflexivity|].
  rewrite <- !matched_pairb_spec. vm_compute.
  intros [H|H]; discriminate H.
Qed.

(** C2, as the code has it: a request whose [name] is missing or empty
    never reaches the backend.  The empty string is answered with
    HTTP 400 by the endpoint function; a missing member fails the
    validation against [NameInput] and is answered with HTTP 422 before
    the endpoint function runs. *)
Theorem C2_missing_or_empty_name
  (model : GenerativeModel) (b : RequestBody) :
  name_member b = None \/ name_member b = Some [] ->
  backend_calls (fst (post_generate_name model b)) = []
  /\ snd (post_generate_name model b) =
     match name_member b with
     | Some _ => HTTPError 400 detail_no_name
     | None => RequestValidationError
     end
  /\ status (snd (post_generate_name model b)) =
     match name_member b with
     | Some _ => 400%Z
     | None => 422%Z
     end.
Proof.
  destruct b as [[nm|]]; cbn [name_member]; intros [H|H];
    try discriminate H.
  - injection H as ->. change {| name_member := Some [] |} with (body_of []).
    rewrite post_empty_name. repeat split.
  - rewrite post_missing_name. repeat split.
Qed.

Lemma C2_missing_or_empty_name_witness :
  (name_member (body_of []) = None \/ name_member (body_of []) = Some [])
  /\ backend_calls
       (fst (post_generate_name (stub_text (u "山（サン）")) (body_of []))) = []
  /\ snd (post_generate_name (stub_text (u "山（サン）")) (body_of []))
     = HTTPError 400 detail_no_name
  /\ status (snd (post_generate_name (stub_text (u "山（サン）")) (body_of [])))
     = 400%Z.
Proof.
  split; [right; reflexivity|].
  apply (C2_missing_or_empty_name (stub_text (u "山（サン）")) (body_of [])).
  right. reflexivity.
Defined.

(** C2 as stated fails: a body without the [name] member is answered
    with status 422, not 400. *)
Lemma C2_missing_name_counterexample :
  name_member {| name_member := None |} = None
  /\ status (snd (post_generate_name (stub_text (u "山（サン）"))
                    {| name_member := None |})) = 422%Z
  /\ status (snd (post_generate_name (stub_text (u "山（サン）"))
                    {| name_member := None |})) <> 400%Z.
Proof. repeat split. discriminate. Qed.

(** C3, as the code has it: a backend reply whose text holds both [(]
    and [)], or both full-width ones, is returned by the generation
    function and by the endpoint function as the reply with the
    whitespace at its two ends removed and nothing else changed; the
    answer is 200 with that text as new_name whenever the stripped text
    can be encoded as UTF-8; and the request for "山田太郎" against a
    backend that replies "山（サン）" is answered with new_name
    "山（サン）". *)
Theorem C3_reply_passed_through :
  (forall (model : GenerativeModel) (nm t : pystr),
     nm <> [] -> backend_replies model nm t ->
     has_both lparen rparen t \/ has_both fw_lparen fw_rparen t ->
     snd (generate_yubaba_name_gemini model nm) = Return (strip t)
     /\ snd (create_new_name model {| name := nm |})
        = Return {| new_name := strip t |}
     /\ (utf8_encodable (strip t) = true ->
         snd (post_generate_name model (body_of nm))
         = JSONResponse {| new_name := strip t |})
     /\ (exists l r, t = l ++ strip t ++ r
           /\ forallb isspace l = true /\ forallb isspace r = true)
     /\ (forall c r, strip t = c :: r -> isspace c = false)
     /\ (forall c r, strip t = r ++ [c] -> isspace c = false))
  /\ snd (post_generate_name (stub_text (u "山（サン）"))
            (body_of (u "山田太郎")))
     = JSONResponse {| new_name := u "山（サン）" |}.
Proof.
  split; [|vm_compute; reflexivity].
  intros model nm t Hnm Hr Hp.
  apply has_paren_pair_spec in Hp.
  destruct (post_reply model nm t Hnm Hr) as [Hg Hpost].
  pose proof (create_reply model nm t Hnm Hr) as Hc.
  rewrite Hp in Hg, Hpost, Hc.
  split; [exact Hg|]. split; [exact Hc|]. split; [|split; [|split]].
  - intros He. rewrite Hpost. now apply respond_return.
  - apply strip_split.
  - intros c r. apply strip_no_leading.
  - intros c r. apply strip_no_trailing.
Qed.

Lemma C3_reply_passed_through_witness :
  u "千尋" <> []
  /\ backend_replies (stub_text (u "  千(セン) ")) (u "千尋")
       (u "  千(セン) ")
  /\ (has_both lparen rparen (u "  千(セン) ")
      \/ has_both fw_lparen fw_rparen (u "  千(セン) "))
  /\ utf8_encodable (strip (u "  千(セン) ")) = true
  /\ snd (post_generate_name (stub_text (u "  千(セン) "))
            (body_of (u "千尋")))
     = JSONResponse {| new_name := u "千(セン)" |}.
Proof.
  assert (Hnm : u "千尋" <> []) by (vm_compute; discriminate).
  assert (Hr : backend_replies (stub_text (u "  千(セン) ")) (u "千尋")
                 (u "  千(セン) ")).
  { eexists _, (TextPart _), []. repeat split. }
  assert (Hp : has_both lparen rparen (u "  千(セン) ")
               \/ has_both fw_lparen fw_rparen (u "  千(セン) ")).
  { apply has_paren_pair_spec. vm_compute. reflexivity. }
  assert (He : utf8_encodable (strip (u "  千(セン) ")) = true)
    by (vm_compute; reflexivity).
  split; [exact Hnm|]. split; [exact Hr|]. split; [exact Hp|].
  split; [exact He|].
  exact (proj1 (proj2 (proj2
    (proj1 C3_reply_passed_through _ _ _ Hnm Hr Hp))) He).
Defined.

(** C3 as stated fails: a reply that holds both parentheses and a
    surrogate standing alone is returned by the endpoint function, but
    the rendering of the answer fails after the return, so the client
    gets the server's plain 500 and not the text. *)
Lemma C3_lone_surrogate_counterexample :
  has_both lparen rparen lone_surrogate_reply
  /\ backend_replies (stub_text lone_surrogate_reply) (u "山田太郎")
       lone_surrogate_reply
  /\ snd (create_new_name (stub_text lone_surrogate_reply)
            {| name := u "山田太郎" |})
     = Return {| new_name := lone_surrogate_reply |}
  /\ snd (post_generate_name (stub_text lone_surrogate_reply)
            (body_of (u "山田太郎")))
     = UnhandledError encoding_error
  /\ status (snd (post_generate_name (stub_text lone_surrogate_reply)
                    (body_of (u "山田太郎")))) = 500%Z
  /\ UnhandledError encoding_error
     <> JSONResponse {| new_name := strip lone_surrogate_reply |}.
Proof.
  split; [apply has_bothb_spec; vm_compute; reflexivity|].
  split; [eexists _, (TextPart _), []; repeat split|].
  split; [vm_compute; reflexivity|].
  split; [vm_compute; reflexivity|].
  split; [vm_compute; reflexivity|].
  discriminate.
Qed.

(** C4: a backend reply whose text holds neither both ASCII parentheses
    nor both full-width ones makes the handler raise the
    unexpected-format error, answered with HTTP 500. *)
Theorem C4_reply_without_pair_rejected
  (model : GenerativeModel) (nm t : pystr) :
  nm <> [] -> backend_replies model nm t ->
  ~ has_both lparen rparen t -> ~ has_both fw_lparen fw_rparen t ->
  snd (generate_yubaba_name_gemini model nm)
    = Raise (HTTPException 500 detail_unexpected_format)
  /\ snd (post_generate_name model (body_of nm))
     = HTTPError 500 detail_unexpected_format
  /\ status (snd (post_generate_name model (body_of nm))) = 500%Z.
Proof.
  intros Hnm Hr Ha Hf.
  assert (Hp : has_paren_pair t = false).
  { destruct (has_paren_pair t) eqn:E; [|reflexivity].
    apply has_paren_pair_spec in E. tauto. }
  destruct (post_reply model nm t Hnm Hr) as [Hg Hpost].
  rewrite Hp in Hg, Hpost. rewrite Hpost. now repeat split.
Qed.

Lemma C4_reply_without_pair_rejected_witness :
  u "千尋" <> []
  /\ backend_replies (stub_text (u "千")) (u "千尋") (u "千")
  /\ ~ has_both lparen rparen (u "千")
  /\ ~ has_both fw_lparen fw_rparen (u "千")
  /\ snd (post_generate_name (stub_text (u "千")) (body_of (u "千尋")))
     = HTTPError 500 detail_unexpected_format.
Proof.
  assert (Hnm : u "千尋" <> []) by (vm_compute; discriminate).
  assert (Hr : backend_replies (stub_text (u "千")) (u "千尋") (u "千")).
  { eexists _, (TextPart _), []. repeat split. }
  assert (Ha : ~ has_both lparen rparen (u "千")).
  { rewrite <- has_bothb_spec. vm_compute. discriminate. }
  assert (Hf : ~ has_both fw_lparen fw_rparen (u "千")).
  { rewrite <- has_bothb_spec. vm_compute. discriminate. }
  split; [exact Hnm|]. split; [exact Hr|].
  split; [exact Ha|]. split; [exact Hf|].
  exact (proj1 (proj2
    (C4_reply_without_pair_rejected _ _ _ Hnm Hr Ha Hf))).
Defined.

(** C5, as the code has it: a backend response whose list of parts is
    empty makes the handler raise the empty-response error, answered with
    HTTP 500, and its message differs from those of the other two server
    errors.  A response without usable text of another sort is answered
    with another kind of error: one that has parts but an empty or blank
    text with unexpected-format, and one whose [parts] or [text] accessor
    raises an exception other than [HTTPException] with
    upstream-failure. *)
Theorem C5_empty_response
  (model : GenerativeModel) (nm : pystr) :
  nm <> [] ->
  (backend_empty model nm ->
   snd (generate_yubaba_name_gemini model nm)
     = Raise (HTTPException 500 detail_no_response)
   /\ snd (post_generate_name model (body_of nm))
      = HTTPError 500 detail_no_response
   /\ status (snd (post_generate_name model (body_of nm))) = 500%Z)
  /\ (forall t, backend_replies model nm t -> forallb isspace t = true ->
      snd (post_generate_name model (body_of nm))
      = HTTPError 500 detail_unexpected_format)
  /\ (forall e, backend_raises model nm e ->
      isinstance_HTTPException e = false ->
      snd (post_generate_name model (body_of nm))
      = HTTPError 500 detail_server_error)
  /\ detail_no_response <> detail_unexpected_format
  /\ detail_no_response <> detail_server_error.
Proof.
  intros Hnm. split; [|split; [|split; [|split]]].
  - intros He. rewrite (post_empty_response model nm Hnm He).
    destruct He as (r & Hg & Hp). rewrite generate_result, Hg, Hp.
    repeat split.
  - intros t Hr Hs.
    destruct (post_reply model nm t Hnm Hr) as [_ ->].
    now rewrite (space_only_no_pair t Hs).
  - intros e He Hc. rewrite (post_raised model nm e Hnm He).
    destruct e; [discriminate Hc | reflexivity].
  - vm_compute. discriminate.
  - vm_compute. discriminate.
Qed.

Lemma C5_empty_response_witness :
  u "千尋" <> []
  /\ backend_empty (stub_empty None) (u "千尋")
  /\ snd (post_generate_name (stub_empty None) (body_of (u "千尋")))
     = HTTPError 500 detail_no_response.
Proof.
  assert (Hnm : u "千尋" <> []) by (vm_compute; discriminate).
  assert (He : backend_empty (stub_empty None) (u "千尋")).
  { eexists. split; reflexivity. }
  split; [exact Hnm|]. split; [exact He|].
  exact (proj1 (proj2 (proj1 (C5_empty_response _ _ Hnm) He))).
Defined.

(** C5 as stated fails: a response whose one part holds the empty text
    has no usable text, yet it is answered with the unexpected-format
    error; and a response whose [parts] accessor raises, as it does when
    the backend sent no candidate, is answered with the upstream-failure
    error.  Neither gets the empty-response error. *)
Lemma C5_no_usable_text_counterexample :
  backend_replies (stub_text []) (u "千尋") []
  /\ snd (post_generate_name (stub_text []) (body_of (u "千尋")))
     = HTTPError 500 detail_unexpected_format
  /\ backend_raises
       (stub_parts_raising (OtherException (u "no candidates")))
       (u "千尋") (OtherException (u "no candidates"))
  /\ snd (post_generate_name
            (stub_parts_raising (OtherException (u "no candidates")))
            (body_of (u "千尋")))
     = HTTPError 500 detail_server_error
  /\ HTTPError 500 detail_unexpected_format
     <> HTTPError 500 detail_no_response
  /\ HTTPError 500 detail_server_error <> HTTPError 500 detail_no_response.
Proof.
  split; [eexists _, (TextPart _), []; repeat split|].
  split; [vm_compute; reflexivity|].
  split; [right; eexists; split; [reflexivity | left; reflexivity]|].
  split; [vm_compute; reflexivity|].
  split; vm_compute; discriminate.
Qed.

(** C6, as the code has it: an exception raised by the backend call or
    while the response is processed that is not an [HTTPException] makes
    the handler raise the upstream-failure error, answered with HTTP 500
    and the generic message.  An [HTTPException] raised there is raised
    again as it is by the generation function and by the endpoint
    function, and is answered with its own status code and detail when
    that status code is one of 200 to 599 that carries a body and the
    detail can be encoded.  The endpoint function itself lets no
    exception but an [HTTPException] out. *)
Theorem C6_exception_surfaces_as_http_error
  (model : GenerativeModel) (nm : pystr) (e : exc) :
  nm <> [] -> backend_raises model nm e ->
  snd (generate_yubaba_name_gemini model nm) = Raise (surfaced e)
  /\ snd (create_new_name model {| name := nm |}) = Raise (surfaced e)
  /\ (isinstance_HTTPException e = false ->
      snd (post_generate_name model (body_of nm))
      = HTTPError 500 detail_server_error
      /\ status (snd (post_generate_name model (body_of nm))) = 500%Z)
  /\ (forall s d, e = HTTPException s d ->
      (200 <= s <= 599)%Z -> is_body_allowed_for_status_code s = true ->
      utf8_encodable d = true ->
      surfaced e = e
      /\ snd (post_generate_name model (body_of nm)) = HTTPError s d)
  /\ (forall name_input m,
      snd (create_new_name model name_input) <> Raise (OtherException m)).
Proof.
  intros Hnm H.
  pose proof (generate_raised model nm e H) as Hg.
  split; [exact Hg|]. split; [|split; [|split]].
  - now rewrite (create_of_generate model nm Hnm), Hg.
  - intros Hc. rewrite (post_raised model nm e Hnm H).
    destruct e; [discriminate Hc | now split].
  - intros s d -> _ Hs Hd. split; [reflexivity|].
    rewrite (post_raised model nm _ Hnm H). now apply respond_http.
  - apply create_raises_http.
Qed.

Lemma C6_exception_surfaces_as_http_error_witness :
  u "千尋" <> []
  /\ backend_raises (stub_raising (OtherException (u "deadline exceeded")))
       (u "千尋") (OtherException (u "deadline exceeded"))
  /\ isinstance_HTTPException (OtherException (u "deadline exceeded"))
     = false
  /\ snd (post_generate_name
            (stub_raising (OtherException (u "deadline exceeded")))
            (body_of (u "千尋")))
     = HTTPError 500 detail_server_error.
Proof.
  assert (Hnm : u "千尋" <> []) by (vm_compute; discriminate).
  assert (Hr : backend_raises
                 (stub_raising (OtherException (u "deadline exceeded")))
                 (u "千尋") (OtherException (u "deadline exceeded"))).
  { left. reflexivity. }
  split; [exact Hnm|]. split; [exact Hr|]. split; [reflexivity|].
  exact (proj1 (proj1 (proj2 (proj2
    (C6_exception_surfaces_as_http_error _ _ _ Hnm Hr))) eq_refl)).
Defined.

(** C6 as stated fails: when the backend call raises an [HTTPException]
    the handler raises it again unchanged, so the answer carries the
    backend's status code and detail and not the upstream-failure
    error. *)
Lemma C6_http_exception_counterexample :
  backend_raises (stub_raising (HTTPException 503 (u "quota exhausted")))
    (u "千尋") (HTTPException 503 (u "quota exhausted"))
  /\ snd (post_generate_name
            (stub_raising (HTTPException 503 (u "quota exhausted")))
            (body_of (u "千尋")))
     = HTTPError 503 (u "quota exhausted")
  /\ HTTPError 503 (u "quota exhausted") <> HTTPError 500 detail_server_error.
Proof.
  split; [left; reflexivity|].
  split; [vm_compute; reflexivity|].
  vm_compute. discriminate.
Qed.

(** C7, as the code has it: two runs in which the backend fails in the
    same way (an exception other than [HTTPException], a response without
    parts, or a reply that misses the format) are answered with HTTP 500
    and the one fixed message of that kind of error, whatever the reply
    texts or exception messages were. *)
Theorem C7_error_detail_is_generic
  (m1 m2 : GenerativeModel) (n1 n2 : pystr) (k : error_kind) :
  n1 <> [] -> n2 <> [] ->
  backend_fails m1 n1 k -> backend_fails m2 n2 k ->
  (forall e, backend_raises m1 n1 e -> isinstance_HTTPException e = false) ->
  (forall e, backend_raises m2 n2 e -> isinstance_HTTPException e = false) ->
  snd (post_generate_name m1 (body_of n1)) = HTTPError 500 (generic_detail k)
  /\ snd (post_generate_name m2 (body_of n2))
     = HTTPError 500 (generic_detail k).
Proof.
  assert (one : forall m nm, nm <> [] -> backend_fails m nm k ->
    (forall e, backend_raises m nm e -> isinstance_HTTPException e = false) ->
    snd (post_generate_name m (body_of nm)) = HTTPError 500 (generic_detail k)).
  { intros m nm Hnm Hf Hc. destruct k; cbn [backend_fails generic_detail] in *.
    - destruct Hf as [e He]. rewrite (post_raised m nm e Hnm He).
      specialize (Hc e He). destruct e; [discriminate Hc | reflexivity].
    - now apply post_empty_response.
    - destruct Hf as (t & Hr & Hp).
      rewrite has_paren_pair_strip in Hp.
      destruct (post_reply m nm t Hnm Hr) as [_ ->]. now rewrite Hp. }
  intros H1 H2 F1 F2 C1 C2. split; now apply one.
Qed.

Lemma C7_error_detail_is_generic_witness :
  u "千尋" <> [] /\ u "山田太郎" <> []
  /\ backend_fails (stub_raising (OtherException (u "deadline exceeded")))
       (u "千尋") UpstreamFailure
  /\ backend_fails (stub_raising (OtherException (u "invalid api key")))
       (u "山田太郎") UpstreamFailure
  /\ (forall e,
        backend_raises (stub_raising (OtherException (u "deadline exceeded")))
          (u "千尋") e -> isinstance_HTTPException e = false)
  /\ (forall e,
        backend_raises (stub_raising (OtherException (u "invalid api key")))
          (u "山田太郎") e -> isinstance_HTTPException e = false)
  /\ snd (post_generate_name
            (stub_raising (OtherException (u "deadline exceeded")))
            (body_of (u "千尋")))
     = HTTPError 500 (generic_detail UpstreamFailure)
  /\ snd (post_generate_name
            (stub_raising (OtherException (u "invalid api key")))
            (body_of (u "山田太郎")))
     = HTTPError 500 (generic_detail UpstreamFailure).
Proof.
  assert (H1 : u "千尋" <> []) by (vm_compute; discriminate).
  assert (H2 : u "山田太郎" <> []) by (vm_compute; discriminate).
  assert (F1 : backend_fails
                 (stub_raising (OtherException (u "deadline exceeded")))
                 (u "千尋") UpstreamFailure).
  { eexists. left. reflexivity. }
  assert (F2 : backend_fails
                 (stub_raising (OtherException (u "invalid api key")))
                 (u "山田太郎") UpstreamFailure).
  { eexists. left. reflexivity. }
  assert (G1 : forall e,
             backend_raises
               (stub_raising (OtherException (u "deadline exceeded")))
               (u "千尋") e -> isinstance_HTTPException e = false).
  { intros e [H | (r & H & _)]; cbn in H; [|discriminate H].
    injection H as <-. reflexivity. }
  assert (G2 : forall e,
             backend_raises
               (stub_raising (OtherException (u "invalid api key")))
               (u "山田太郎") e -> isinstance_HTTPException e = false).
  { intros e [H | (r & H & _)]; cbn in H; [|discriminate H].
    injection H as <-. reflexivity. }
  split; [exact H1|]. split; [exact H2|]. split; [exact F1|].
  split; [exact F2|]. split; [exact G1|]. split; [exact G2|].
  exact (C7_error_detail_is_generic
           (stub_raising (OtherException (u "deadline exceeded")))
           (stub_raising (OtherException (u "invalid api key")))
           (u "千尋") (u "山田太郎") UpstreamFailure
           H1 H2 F1 F2 G1 G2).
Defined.

(** C7 as stated fails: two backends that fail by raising
    [HTTPException]s with status 500 and different details are answered
    with those different details, so the detail sent to the client
    depends on what the backend raised. *)
Lemma C7_detail_depends_on_backend_counterexample :
  backend_fails (stub_raising (HTTPException 500 (u "key=abc rejected")))
    (u "千尋") UpstreamFailure
  /\ backend_fails (stub_raising (HTTPException 500 (u "key=xyz rejected")))
       (u "千尋") UpstreamFailure
  /\ snd (post_generate_name
            (stub_raising (HTTPException 500 (u "key=abc rejected")))
            (body_of (u "千尋")))
     = HTTPError 500 (u "key=abc rejected")
  /\ snd (post_generate_name
            (stub_raising (HTTPException 500 (u "key=xyz rejected")))
            (body_of (u "千尋")))
     = HTTPError 500 (u "key=xyz rejected")
  /\ u "key=abc rejected" <> u "key=xyz rejected".
Proof.
  split; [eexists; left; reflexivity|].
  split; [eexists; left; reflexivity|].
  split; [vm_compute; reflexivity|].
  split; [vm_compute; reflexivity|].
  vm_compute. discriminate.
Qed.

(** C8: the reply "サン)テキスト(" has its closing parenthesis before its
    opening one and no matching pair of either width, yet it passes the
    format check and is returned: the check only asks that both
    characters occur. *)
Theorem C8_unordered_pair_accepted :
  exists t : pystr,
    t = u "サン)テキスト("
    /\ matched_pair rparen lparen t
    /\ ~ matched_pair lparen rparen t
    /\ ~ matched_pair fw_lparen fw_rparen t
    /\ has_paren_pair (strip t) = true
    /\ (forall nm,
          snd (generate_yubaba_name_gemini (stub_text t) nm) = Return t)
    /\ snd (post_generate_name (stub_text t) (body_of (u "山田太郎")))
       = JSONResponse {| new_name := t |}.
Proof.
  exists (u "サン)テキスト("). split; [reflexivity|].
  rewrite <- !matched_pairb_spec.
  split; [vm_compute; reflexivity|].
  split; [vm_compute; discriminate|].
  split; [vm_compute; discriminate|].
  split; [vm_compute; reflexivity|].
  split; [|vm_compute; reflexivity].
  intros nm. rewrite generate_result. reflexivity.
Qed.

(** C9: a reply that holds an opening parenthesis of one width and a
    closing one of the other, and neither both ASCII nor both full-width
    parentheses, is rejected with the unexpected-format error, answered
    with HTTP 500. *)
Theorem C9_mixed_width_pair_rejected
  (model : GenerativeModel) (nm t : pystr) :
  nm <> [] -> backend_replies model nm t ->
  has_both fw_lparen rparen t \/ has_both lparen fw_rparen t ->
  ~ has_both lparen rparen t -> ~ has_both fw_lparen fw_rparen t ->
  snd (post_generate_name model (body_of nm))
    = HTTPError 500 detail_unexpected_format
  /\ status (snd (post_generate_name model (body_of nm))) = 500%Z.
Proof.
  intros Hnm Hr _ Ha Hf.
  assert (Hp : has_paren_pair t = false).
  { destruct (has_paren_pair t) eqn:E; [|reflexivity].
    apply has_paren_pair_spec in E. tauto. }
  destruct (post_reply model nm t Hnm Hr) as [_ ->].
  rewrite Hp. split; reflexivity.
Qed.

Lemma C9_mixed_width_pair_rejected_witness :
  u "山田太郎" <> []
  /\ backend_replies (stub_text (u "山（サン)")) (u "山田太郎") (u "山（サン)")
  /\ (has_both fw_lparen rparen (u "山（サン)")
      \/ has_both lparen fw_rparen (u "山（サン)"))
  /\ ~ has_both lparen rparen (u "山（サン)")
  /\ ~ has_both fw_lparen fw_rparen (u "山（サン)")
  /\ snd (post_generate_name (stub_text (u "山（サン)"))
            (body_of (u "山田太郎")))
     = HTTPError 500 detail_unexpected_format.
Proof.
  assert (Hnm : u "山田太郎" <> []) by (vm_compute; discriminate).
  assert (Hr : backend_replies (stub_text (u "山（サン)"))
                 (u "山田太郎") (u "山（サン)")).
  { eexists _, (TextPart _), []. repeat split. }
  assert (Hm : has_both fw_lparen rparen (u "山（サン)")
               \/ has_both lparen fw_rparen (u "山（サン)")).
  { left. apply has_bothb_spec. vm_compute. reflexivity. }
  assert (Ha : ~ has_both lparen rparen (u "山（サン)")).
  { rewrite <- has_bothb_spec. vm_compute. discriminate. }
  assert (Hf : ~ has_both fw_lparen fw_rparen (u "山（サン)")).
  { rewrite <- has_bothb_spec. vm_compute. discriminate. }
  split; [exact Hnm|]. split; [exact Hr|]. split; [exact Hm|].
  split; [exact Ha|]. split; [exact Hf|].
  exact (proj1 (C9_mixed_width_pair_rejected _ _ _ Hnm Hr Hm Ha Hf)).
Defined.

(** C10: a name made of whitespace only is not the empty string, so it
    passes the validation, and the backend is called once with the
    prompt in which that name is embedded. *)
Theorem C10_whitespace_name_reaches_backend
  (model : GenerativeModel) (nm : pystr) :
  str_isspace nm = true ->
  truthy nm = true
  /\ backend_calls (fst (post_generate_name model (body_of nm)))
     = [GenerateContent (prompt_of nm)]
  /\ str_in nm (prompt_of nm) = true
  /\ (exists pre mid suf, prompt_of nm = pre ++ nm ++ mid ++ nm ++ suf).
Proof.
  intros H.
  assert (Hnm : nm <> []) by (destruct nm; [discriminate H | discriminate]).
  split; [now destruct nm|].
  split; [now apply post_calls|].
  split.
  - unfold prompt_of. apply str_in_embedded.
  - unfold prompt_of. eexists _, _, _. reflexivity.
Qed.

Lemma C10_whitespace_name_reaches_backend_witness :
  str_isspace (u "   ") = true
  /\ truthy (u "   ") = true
  /\ backend_calls
       (fst (post_generate_name (stub_text (u "山（サン）")) (body_of (u "   "))))
     = [GenerateContent (prompt_of (u "   "))].
Proof.
  assert (H : str_isspace (u "   ") = true) by (vm_compute; reflexivity).
  split; [exact H|].
  split.
  - exact (proj1 (C10_whitespace_name_reaches_backend
                    (stub_text (u "山（サン）")) (u "   ") H)).
  - exact (proj1 (proj2 (C10_whitespace_name_reaches_backend
                    (stub_text (u "山（サン）")) (u "   ") H))).
Defined.

(** * Further properties of the request path *)

Lemma stub_text_never_raises (t nm : pystr) (e : exc) :
  backend_raises (stub_text t) nm e -> isinstance_HTTPException e = false.
Proof.
  intros [H | (r & H & [Hp | (p & ps & _ & Ht)])]; cbn in H.
  - discriminate H.
  - injection H as <-. discriminate Hp.
  - injection H as <-. discriminate Ht.
Qed.

Lemma stub_text_replies (t nm : pystr) : backend_replies (stub_text t) nm t.
Proof. eexists _, (TextPart t), []. repeat split. Qed.

Lemma distinct_members_length (o c : codepoint) (s : pystr) :
  o <> c -> In o s -> In c s -> 2 <= List.length s.
Proof.
  intros Hne Ho Hc. destruct s as [|x [|y r]]; simpl in *.
  - contradiction.
  - destruct Ho as [<-|[]], Hc as [<-|[]]. contradiction.
  - lia.
Qed.

Lemma has_both_within (o c : codepoint) (a t b : pystr) :
  has_both o c t -> has_both o c (a ++ t ++ b).
Proof.
  intros [Ho Hc]. split; apply in_or_app; right; apply in_or_app; now left.
Qed.

Lemma has_paren_pair_within (a t b : pystr) :
  has_paren_pair t = true -> has_paren_pair (a ++ t ++ b) = true.
Proof.
  rewrite !has_paren_pair_spec.
  intros [H|H]; [left|right]; now apply has_both_within.
Qed.

Lemma app_same_length {A : Type} (l1 l2 r1 r2 : list A) :
  l1 ++ r1 = l2 ++ r2 -> List.length l1 = List.length l2 -> l1 = l2.
Proof.
  revert l2. induction l1 as [|x l1 IH]; intros [|y l2] E L;
    simpl in *; try discriminate; [reflexivity|].
  injection E as -> E. injection L as L. f_equal. now apply IH.
Qed.

(** X1: whatever the backend does, a request makes at most one call of
    [generate_content]: exactly one, on the prompt of its name, when the
    name is present and not empty, and none otherwise.  There is no
    second attempt after a failure. *)
Theorem backend_called_once_or_never
  (model : GenerativeModel) (b : RequestBody) :
  backend_calls (fst (post_generate_name model b)) =
  match name_member b with
  | Some (c :: nm) => [GenerateContent (prompt_of (c :: nm))]
  | _ => []
  end.
Proof.
  destruct b as [[[|c nm]|]]; cbn [name_member].
  - change {| name_member := Some [] |} with (body_of []).
    now rewrite post_empty_name.
  - change {| name_member := Some (c :: nm) |} with (body_of (c :: nm)).
    apply post_calls. discriminate.
  - now rewrite post_missing_name.
Qed.

(** X2: the endpoint answers with the body of a [NameOutput] exactly
    when the name is present and not empty, the backend replied with a
    text that holds both characters of a pair, and that text, stripped,
    can be encoded; the body is then that stripped text. *)
Theorem success_iff_reply_has_pair
  (model : GenerativeModel) (b : RequestBody) (out : NameOutput) :
  snd (post_generate_name model b) = JSONResponse out <->
  exists nm t,
    name_member b = Some nm /\ nm <> [] /\ backend_replies model nm t
    /\ has_paren_pair t = true /\ utf8_encodable (strip t) = true
    /\ out = {| new_name := strip t |}.
Proof.
  split.
  - intros H.
    pose proof (post_success_encodable model b out H) as He.
    destruct (post_success model b out H) as (nm & t & Hb & Hn & Hr & Hc & E).
    exists nm, t. rewrite has_paren_pair_strip in Hc.
    destruct out as [x]. cbn in E, He. subst x. now repeat split.
  - intros (nm & t & Hb & Hn & Hr & Hc & He & ->).
    destruct b as [o]. cbn in Hb. subst o.
    change {| name_member := Some nm |} with (body_of nm).
    destruct (post_reply model nm t Hn Hr) as [_ ->]. rewrite Hc.
    now apply respond_return.
Qed.

(** X3: the [new_name] of a 200 answer has at least two characters and
    neither starts nor ends with a whitespace character. *)
Theorem success_name_is_trimmed
  (model : GenerativeModel) (b : RequestBody) (out : NameOutput) :
  snd (post_generate_name model b) = JSONResponse out ->
  2 <= List.length (new_name out)
  /\ (forall c r, new_name out = c :: r -> isspace c = false)
  /\ (forall c r, new_name out = r ++ [c] -> isspace c = false).
Proof.
  intros H.
  destruct (post_success model b out H) as (nm & t & _ & _ & _ & Hc & ->).
  split; [|split].
  - apply has_paren_pair_spec in Hc.
    destruct Hc as [[Ho Hc]|[Ho Hc]].
    + apply (distinct_members_length lparen rparen); [discriminate|..];
        assumption.
    + apply (distinct_members_length fw_lparen fw_rparen); [discriminate|..];
        assumption.
  - intros c r. apply strip_no_leading.
  - intros c r. apply strip_no_trailing.
Qed.

Lemma success_name_is_trimmed_witness :
  snd (post_generate_name (stub_text (u "  千(セン) ")) (body_of (u "千尋")))
    = JSONResponse {| new_name := u "千(セン)" |}
  /\ 2 <= List.length (u "千(セン)").
Proof.
  assert (H : snd (post_generate_name (stub_text (u "  千(セン) "))
                     (body_of (u "千尋")))
              = JSONResponse {| new_name := u "千(セン)" |})
    by (vm_compute; reflexivity).
  split; [exact H|].
  exact (proj1 (success_name_is_trimmed
                  (stub_text (u "  千(セン) ")) (body_of (u "千尋"))
                  {| new_name := u "千(セン)" |} H)).
Defined.

(** X4: against a backend that raises no [HTTPException], the status of
    the answer is 422 for a missing name, 400 for the empty name, and 200
    or 500 for every other name. *)
Theorem status_by_request
  (model : GenerativeModel) (b : RequestBody) :
  (forall nm e, backend_raises model nm e ->
                isinstance_HTTPException e = false) ->
  match name_member b with
  | None => status (snd (post_generate_name model b)) = 422%Z
  | Some [] => status (snd (post_generate_name model b)) = 400%Z
  | Some _ =>
    status (snd (post_generate_name model b)) = 200%Z
    \/ status (snd (post_generate_name model b)) = 500%Z
  end.
Proof.
  intros Hb. destruct b as [[[|c nm]|]]; cbn [name_member].
  - change {| name_member := Some [] |} with (body_of []).
    now rewrite post_empty_name.
  - change {| name_member := Some (c :: nm) |} with (body_of (c :: nm)).
    rewrite post_result by discriminate. rewrite generate_result.
    assert (Hs : forall e, backend_raises model (c :: nm) e ->
                 status (respond (Raise (surfaced e))) = 500%Z).
    { intros e He. unfold surfaced. rewrite (Hb (c :: nm) e He).
      apply status_respond_500. }
    destruct (generate_content model (prompt_of (c :: nm))) as [r|e] eqn:Hg.
    + destruct (parts r) as [[|p ps]|e] eqn:Hp.
      * right. apply status_respond_500.
      * destruct (text r) as [t|e] eqn:Ht.
        -- destruct (has_paren_pair (strip t)).
           ++ unfold respond. cbn [new_name].
              destruct (utf8_encodable (strip t)); [now left | now right].
           ++ right. apply status_respond_500.
        -- right. apply Hs. right. exists r. split; [exact Hg|].
           right. now exists p, ps.
      * right. apply Hs. right. exists r. split; [exact Hg|]. now left.
    + right. apply Hs. now left.
  - reflexivity.
Qed.

Lemma status_by_request_witness :
  (forall nm e, backend_raises (stub_text (u "千")) nm e ->
                isinstance_HTTPException e = false)
  /\ (status (snd (post_generate_name (stub_text (u "千"))
                     (body_of (u "千尋")))) = 200%Z
      \/ status (snd (post_generate_name (stub_text (u "千"))
                        (body_of (u "千尋")))) = 500%Z).
Proof.
  split; [exact (stub_text_never_raises (u "千"))|].
  exact (status_by_request (stub_text (u "千"))
           {| name_member := Some [21315%N; 23563%N] |}
           (stub_text_never_raises (u "千"))).
Defined.

(** X5: an exception raised by the backend call or while the response is
    processed is handed to the server-side logger, as the argument of an
    ERROR record, whether or not the client gets to see it. *)
Theorem backend_exception_is_logged
  (model : GenerativeModel) (nm : pystr) (e : exc) :
  nm <> [] -> backend_raises model nm e ->
  In (Logged ERROR
        (u "Gemini API呼び出しまたは処理中にエラーが発生しました: %s")
        [ArgExc e])
     (fst (post_generate_name model (body_of nm))).
Proof.
  intros Hnm H. rewrite post_body_of. cbn [fst].
  destruct nm as [|c nm]; [contradiction|].
  unfold create_new_name, generate_yubaba_name_gemini.
  cbn [name truthy negb].
  destruct H as [Hg | (r & Hg & [Hp | (p & ps & Hp & Ht)])].
  - rewrite Hg. destruct e; cbn; do 4 right; now left.
  - rewrite Hg. cbn. rewrite Hp. destruct e; cbn; do 5 right; now left.
  - rewrite Hg. cbn. rewrite Hp. cbn. rewrite Ht.
    destruct e; cbn; do 5 right; now left.
Qed.

Lemma backend_exception_is_logged_witness :
  u "千尋" <> []
  /\ backend_raises (stub_raising (OtherException (u "deadline exceeded")))
       (u "千尋") (OtherException (u "deadline exceeded"))
  /\ In (Logged ERROR
           (u "Gemini API呼び出しまたは処理中にエラーが発生しました: %s")
           [ArgExc (OtherException (u "deadline exceeded"))])
        (fst (post_generate_name
                (stub_raising (OtherException (u "deadline exceeded")))
                (body_of (u "千尋")))).
Proof.
  assert (Hnm : u "千尋" <> []) by (vm_compute; discriminate).
  assert (Hr : backend_raises
                 (stub_raising (OtherException (u "deadline exceeded")))
                 (u "千尋") (OtherException (u "deadline exceeded"))).
  { left. reflexivity. }
  split; [exact Hnm|]. split; [exact Hr|].
  exact (backend_exception_is_logged
           (stub_raising (OtherException (u "deadline exceeded")))
           (u "千尋") (OtherException (u "deadline exceeded")) Hnm Hr).
Defined.

(** X6: whenever a request with a non-empty name is answered with an
    error, the endpoint function has logged the detail of that very
    answer in an ERROR record. *)
Theorem error_detail_is_logged
  (model : GenerativeModel) (nm : pystr) (s : Z) (d : pystr) :
  nm <> [] ->
  snd (post_generate_name model (body_of nm)) = HTTPError s d ->
  In (Logged ERROR (u "名前生成関数内でHTTPExceptionが発生しました: %s")
        [ArgStr d])
     (fst (post_generate_name model (body_of nm))).
Proof.
  intros Hnm. rewrite post_body_of. cbn [fst snd].
  destruct nm as [|c nm]; [contradiction|].
  intros H. apply respond_error_inv in H. revert H.
  pose proof (generate_raises_http model (c :: nm)) as Hh. revert Hh.
  unfold create_new_name. cbn [name truthy negb].
  destruct (generate_yubaba_name_gemini model (c :: nm)) as [tr [x|[s' d'|m]]];
    intros Hh.
  - cbn. discriminate.
  - cbn. intros E. injection E as -> ->.
    right. apply in_or_app. right. now left.
  - specialize (Hh (OtherException m) eq_refl). discriminate Hh.
Qed.

Lemma error_detail_is_logged_witness :
  u "千尋" <> []
  /\ snd (post_generate_name (stub_text (u "千")) (body_of (u "千尋")))
     = HTTPError 500 detail_unexpected_format
  /\ In (Logged ERROR (u "名前生成関数内でHTTPExceptionが発生しました: %s")
           [ArgStr detail_unexpected_format])
        (fst (post_generate_name (stub_text (u "千")) (body_of (u "千尋")))).
Proof.
  assert (Hnm : u "千尋" <> []) by (vm_compute; discriminate).
  assert (H : snd (post_generate_name (stub_text (u "千")) (body_of (u "千尋")))
              = HTTPError 500 detail_unexpected_format)
    by (vm_compute; reflexivity).
  split; [exact Hnm|]. split; [exact H|].
  exact (error_detail_is_logged (stub_text (u "千")) (u "千尋") 500
           detail_unexpected_format Hnm H).
Defined.

(** X7: the second [except] clause of the endpoint function never runs.
    The generation function raises nothing but [HTTPException]s, so for
    no backend and no request does the log hold the record of that
    clause. *)
Theorem generic_except_clause_is_dead
  (model : GenerativeModel) (b : RequestBody) (nm : pystr) :
  match snd (generate_yubaba_name_gemini model nm) with
  | Raise (OtherException _) => False
  | _ => True
  end
  /\ existsb
       (is_record ERROR
          (u "エンドポイント処理中に予期せぬエラーが発生しました: %s"))
       (fst (post_generate_name model b)) = false.
Proof.
  split.
  - pose proof (generate_raises_http model nm) as Hh.
    destruct (snd (generate_yubaba_name_gemini model nm)) as [x|[s d|m]];
      [exact I | exact I |].
    specialize (Hh (OtherException m) eq_refl). discriminate Hh.
  - destruct b as [[[|c n]|]]; [reflexivity | | reflexivity].
    unfold post_generate_name, create_new_name, generate_yubaba_name_gemini.
    cbn [NameInput_validate name_member name truthy negb].
    destruct (generate_content model (prompt_of (c :: n))) as [r|e]; cbn.
    + destruct (parts r) as [[|p ps]|e]; cbn.
      * destruct (prompt_feedback r); vm_compute; reflexivity.
      * destruct (text r) as [t|e]; cbn.
        -- destruct (has_paren_pair (strip t)); vm_compute; reflexivity.
        -- destruct e; vm_compute; reflexivity.
      * destruct e; vm_compute; reflexivity.
    + destruct e; vm_compute; reflexivity.
Qed.

(** X8: a reply that has parts but whose text is empty or made of
    whitespace only is answered with the unexpected-format error, not
    with the empty-response one. *)
Theorem blank_reply_is_unexpected_format
  (model : GenerativeModel) (nm t : pystr) :
  nm <> [] -> backend_replies model nm t -> forallb isspace t = true ->
  snd (post_generate_name model (body_of nm))
    = HTTPError 500 detail_unexpected_format
  /\ detail_unexpected_format <> detail_no_response.
Proof.
  intros Hnm Hr Hs.
  destruct (post_reply model nm t Hnm Hr) as [_ ->].
  rewrite (space_only_no_pair t Hs).
  split; [reflexivity|]. vm_compute. discriminate.
Qed.

Lemma blank_reply_is_unexpected_format_witness :
  u "千尋" <> []
  /\ backend_replies (stub_text (u "  ")) (u "千尋") (u "  ")
  /\ forallb isspace (u "  ") = true
  /\ snd (post_generate_name (stub_text (u "  ")) (body_of (u "千尋")))
     = HTTPError 500 detail_unexpected_format.
Proof.
  assert (Hnm : u "千尋" <> []) by (vm_compute; discriminate).
  assert (Hs : forallb isspace (u "  ") = true) by (vm_compute; reflexivity).
  split; [exact Hnm|]. split; [exact (stub_text_replies (u "  ") (u "千尋"))|].
  split; [exact Hs|].
  exact (proj1 (blank_reply_is_unexpected_format
                  (stub_text (u "  ")) (u "千尋") (u "  ")
                  Hnm (stub_text_replies (u "  ") (u "千尋")) Hs)).
Defined.

(** X9: the format check accepts any reply that holds an accepted text
    somewhere inside: whatever the backend writes before and after it is
    returned by the endpoint function with it, only stripped at the two
    ends, and is sent to the client in a 200 answer whenever it can be
    encoded. *)
Theorem reply_with_surrounding_text_is_returned
  (model : GenerativeModel) (nm a t b : pystr) :
  nm <> [] -> has_paren_pair t = true ->
  backend_replies model nm (a ++ t ++ b) ->
  snd (create_new_name model {| name := nm |})
    = Return {| new_name := strip (a ++ t ++ b) |}
  /\ (utf8_encodable (strip (a ++ t ++ b)) = true ->
      snd (post_generate_name model (body_of nm))
      = JSONResponse {| new_name := strip (a ++ t ++ b) |}).
Proof.
  intros Hnm Hp Hr. split.
  - rewrite (create_reply model nm (a ++ t ++ b) Hnm Hr).
    now rewrite (has_paren_pair_within a t b Hp).
  - intros He.
    destruct (post_reply model nm (a ++ t ++ b) Hnm Hr) as [_ ->].
    rewrite (has_paren_pair_within a t b Hp).
    now apply respond_return.
Qed.

Lemma reply_with_surrounding_text_is_returned_witness :
  u "千尋" <> []
  /\ has_paren_pair (u "千（セン）") = true
  /\ backend_replies
       (stub_text (u "はい、新しい名前は" ++ u "千（セン）" ++ u "です。"))
       (u "千尋") (u "はい、新しい名前は" ++ u "千（セン）" ++ u "です。")
  /\ utf8_encodable
       (strip (u "はい、新しい名前は" ++ u "千（セン）" ++ u "です。")) = true
  /\ snd (post_generate_name
            (stub_text (u "はい、新しい名前は" ++ u "千（セン）" ++ u "です。"))
            (body_of (u "千尋")))
     = JSONResponse
         {| new_name :=
              strip (u "はい、新しい名前は" ++ u "千（セン）" ++ u "です。") |}.
Proof.
  assert (Hnm : u "千尋" <> []) by (vm_compute; discriminate).
  assert (Hp : has_paren_pair (u "千（セン）") = true)
    by (vm_compute; reflexivity).
  assert (He : utf8_encodable
                 (strip (u "はい、新しい名前は" ++ u "千（セン）" ++ u "です。"))
               = true) by (vm_compute; reflexivity).
  split; [exact Hnm|]. split; [exact Hp|].
  split; [apply stub_text_replies|]. split; [exact He|].
  exact (proj2 (reply_with_surrounding_text_is_returned
           (stub_text (u "はい、新しい名前は" ++ u "千（セン）" ++ u "です。"))
           (u "千尋") (u "はい、新しい名前は") (u "千（セン）") (u "です。")
           Hnm Hp (stub_text_replies _ _)) He).
Defined.

(** X10: the prompt determines the name: two names with the same prompt
    are the same name, so the backend is never asked the same question
    for two different names. *)
Theorem prompt_of_injective (n1 n2 : pystr) :
  prompt_of n1 = prompt_of n2 -> n1 = n2.
Proof.
  unfold prompt_of.
  generalize (u "あなたは銭婆の姉である湯婆婆です。贅沢な名前「").
  intros pre E. apply app_inv_head in E. revert E.
  match goal with
  | |- n1 ++ ?m ++ n1 ++ ?s = _ -> _ => generalize m, s
  end.
  intros mid suf E.
  apply (app_same_length _ _ _ _ E).
  apply (f_equal (@List.length codepoint)) in E.
  rewrite !length_app in E. lia.
Qed.

Lemma prompt_of_injective_witness :
  prompt_of (u "千尋") = prompt_of [21315%N; 23563%N]
  /\ u "千尋" = [21315%N; 23563%N].
Proof.
  assert (H : prompt_of (u "千尋") = prompt_of [21315%N; 23563%N])
    by reflexivity.
  split; [exact H|].
  exact (prompt_of_injective (u "千尋") [21315%N; 23563%N] H).
Defined.

(** * Start-up *)

(** X11: when [GEMINI_API_KEY] is not set, or set to the empty string,
    start-up fails with the [ValueError] of the module and the client
    library is never called: it is neither configured nor asked for a
    model. *)
Theorem startup_without_key (genai : GenAI) (environ : Environ) :
  getenv environ (u "GEMINI_API_KEY") = None
  \/ getenv environ (u "GEMINI_API_KEY") = Some [] ->
  snd (startup genai environ) = Crashed (OtherException key_missing_message)
  /\ client_calls (fst (startup genai environ)) = [].
Proof.
  unfold startup. intros [-> | ->]; split; reflexivity.
Qed.

Lemma startup_without_key_witness :
  (getenv [(u "PATH", u "/usr/bin")] (u "GEMINI_API_KEY") = None
   \/ getenv [(u "PATH", u "/usr/bin")] (u "GEMINI_API_KEY") = Some [])
  /\ snd (startup (genai_ok (stub_text (u "千（セン）")))
            [(u "PATH", u "/usr/bin")])
     = Crashed (OtherException key_missing_message)
  /\ client_calls (fst (startup (genai_ok (stub_text (u "千（セン）")))
                          [(u "PATH", u "/usr/bin")])) = [].
Proof.
  assert (H : getenv [(u "PATH", u "/usr/bin")] (u "GEMINI_API_KEY") = None
              \/ getenv [(u "PATH", u "/usr/bin")] (u "GEMINI_API_KEY")
                 = Some []).
  { left. vm_compute. reflexivity. }
  split; [exact H|].
  exact (startup_without_key (genai_ok (stub_text (u "千（セン）")))
           [(u "PATH", u "/usr/bin")] H).
Defined.

(** X12: the module ends up loaded with a model exactly when the key is
    set and not empty, the client library accepts it, and the model
    "gemini-1.5-flash" loads; the model served is the one the library
    returned. *)
Theorem startup_serving_iff
  (genai : GenAI) (environ : Environ) (m : GenerativeModel) :
  snd (startup genai environ) = Serving m <->
  exists key,
    getenv environ (u "GEMINI_API_KEY") = Some key /\ key <> []
    /\ configure genai key = Return tt
    /\ new_GenerativeModel genai (u "gemini-1.5-flash") = Return m.
Proof.
  unfold startup. change (u "gemini-1.5-flash") with model_name.
  split.
  - destruct (getenv environ (u "GEMINI_API_KEY")) as [[|c k]|];
      cbn [truthy negb snd]; try discriminate.
    destruct (configure genai (c :: k)) as [[]|e] eqn:Hc;
      cbn [snd]; try discriminate.
    destruct (new_GenerativeModel genai model_name) as [m'|e] eqn:Hm;
      cbn [snd]; try discriminate.
    intros E. injection E as ->.
    exists (c :: k). repeat split; try assumption. discriminate.
  - intros (key & -> & Hk & Hc & Hm).
    destruct key as [|c k]; [contradiction|].
    cbn [truthy negb]. now rewrite Hc, Hm.
Qed.

(** X13: with a key in place, an exception raised by [configure] or by
    the creation of the model makes the process leave through [exit()]
    after logging that exception; and when [configure] raised, the model
    is never asked for. *)
Theorem startup_client_failure_exits
  (genai : GenAI) (environ : Environ) (key : pystr) (e : exc) :
  getenv environ (u "GEMINI_API_KEY") = Some key -> key <> [] ->
  (configure genai key = Raise e
   \/ (configure genai key = Return tt
       /\ new_GenerativeModel genai (u "gemini-1.5-flash") = Raise e)) ->
  snd (startup genai environ) = Exited
  /\ (exists fmt tr,
        fst (startup genai environ) = tr ++ [BootLoggedF ERROR fmt e])
  /\ client_calls (fst (startup genai environ)) =
     match configure genai key with
     | Raise _ => [Configure key]
     | Return _ => [Configure key; LoadModel (u "gemini-1.5-flash")]
     end.
Proof.
  intros Hg Hk H. unfold startup. rewrite Hg.
  change (u "gemini-1.5-flash") with model_name in *.
  destruct key as [|c k]; [contradiction|]. cbn [truthy negb].
  destruct H as [Hc | [Hc Hm]]; rewrite Hc; [|rewrite Hm].
  - split; [reflexivity|]. split; [|reflexivity].
    eexists _, [_; _]. reflexivity.
  - split; [reflexivity|]. split; [|reflexivity].
    eexists _, [_; _; _; _; _; _; _]. reflexivity.
Qed.

Lemma startup_client_failure_exits_witness :
  getenv [(u "GEMINI_API_KEY", u "k-123")] (u "GEMINI_API_KEY")
    = Some (u "k-123")
  /\ u "k-123" <> []
  /\ (configure (genai_refusing (OtherException (u "invalid key"))
                   (stub_text (u "千（セン）"))) (u "k-123")
      = Raise (OtherException (u "invalid key"))
      \/ (configure (genai_refusing (OtherException (u "invalid key"))
                       (stub_text (u "千（セン）"))) (u "k-123") = Return tt
          /\ new_GenerativeModel
               (genai_refusing (OtherException (u "invalid key"))
                  (stub_text (u "千（セン）"))) (u "gemini-1.5-flash")
             = Raise (OtherException (u "invalid key"))))
  /\ snd (startup (genai_refusing (OtherException (u "invalid key"))
                     (stub_text (u "千（セン）")))
            [(u "GEMINI_API_KEY", u "k-123")]) = Exited.
Proof.
  assert (Hg : getenv [(u "GEMINI_API_KEY", u "k-123")] (u "GEMINI_API_KEY")
               = Some (u "k-123")) by (vm_compute; reflexivity).
  assert (Hk : u "k-123" <> []) by (vm_compute; discriminate).
  assert (H : configure (genai_refusing (OtherException (u "invalid key"))
                           (stub_text (u "千（セン）"))) (u "k-123")
              = Raise (OtherException (u "invalid key"))
              \/ (configure (genai_refusing (OtherException (u "invalid key"))
                               (stub_text (u "千（セン）"))) (u "k-123")
                  = Return tt
                  /\ new_GenerativeModel
                       (genai_refusing (OtherException (u "invalid key"))
                          (stub_text (u "千（セン）"))) (u "gemini-1.5-flash")
                     = Raise (OtherException (u "invalid key")))).
  { left. reflexivity. }
  split; [exact Hg|]. split; [exact Hk|]. split; [exact H|].
  exact (proj1 (startup_client_failure_exits
                  (genai_refusing (OtherException (u "invalid key"))
                     (stub_text (u "千（セン）")))
                  [(u "GEMINI_API_KEY", u "k-123")] (u "k-123")
                  (OtherException (u "invalid key")) Hg Hk H)).
Defined.
